(** * Reactor monitoring relay ([src/reactor/main.py])

    A shallow embedding of the relay server: the connection manager, the
    buffered data log, the binary packet sent to the ESP8266 and the two
    message handlers, followed by the properties of the specification that
    were checked against it.

    Conventions.
    - Python [float] is IEEE 754 binary64, taken from the Standard Library's
      [SpecFloat] (mantissa and exponent in [Z], round to nearest even).
    - Python [int] is [Z]; [bytes] is [list byte]; [str] is [string].
    - A coroutine is a function of the server state that returns either a
      value or a raised exception, together with the state it leaves behind:
      what was mutated before a [raise] stays mutated.
    - [asyncio] is cooperative: code between two [await]s runs atomically.
      The locks of the two managers guard sections that contain no [await],
      so they are not represented; the points where other tasks may run are. *)

From Stdlib Require Import ZArith List Bool String Ascii Lia.
From Stdlib Require Import Strings.Byte.
From Stdlib Require Import SpecFloat.
Import ListNotations.
Local Open Scope string_scope.
Local Open Scope list_scope.
Local Open Scope Z_scope.

(* ================================================================== *)
(** ** Python values *)

Module Py.

(** *** Floats *)

Definition prec : Z := 53.
Definition emax : Z := 1024.

Definition float : Type := spec_float.

(** [float(z)] for a Python integer, and the literal [m * 2**e]. *)
Definition float_of_Z (z : Z) : float := binary_normalize prec emax z 0 false.
Definition float_lit (m e : Z) : float := binary_normalize prec emax m e false.

Definition fmul (x y : float) : float := SFmul prec emax x y.
Definition fleb (x y : float) : bool := SFleb x y.

(** The value of a finite positive mantissa and exponent, truncated. *)
Definition trunc_pos (m : positive) (e : Z) : Z := Z.shiftl (Zpos m) e.

(** *** Exceptions

    The classes the program raises or catches.  All of them derive from
    [Exception].  The [except] clauses of the program name
    [json.JSONDecodeError], [WebSocketDisconnect] and [Exception]; no other
    class of the list is a subclass of the first two (pydantic's
    [ValidationError] and [json.JSONDecodeError] both derive from
    [ValueError], neither from the other). *)
Inductive exn : Type :=
| ValidationError            (* pydantic_core.ValidationError *)
| JSONDecodeError            (* json.JSONDecodeError *)
| WebSocketDisconnect        (* starlette.websockets.WebSocketDisconnect *)
| HTTPException (status_code : Z)
| struct_error               (* struct.error *)
| ValueError
| OverflowError
| RuntimeError
| SchemaError                (* polars.exceptions.SchemaError *)
| ShapeError                 (* polars.exceptions.ShapeError *)
| ComputeError               (* polars.exceptions.ComputeError *)
| ConnectionClosed.          (* a transport that fails on send *)

Definition is_JSONDecodeError (e : exn) : bool :=
  match e with JSONDecodeError => true | _ => false end.
Definition is_WebSocketDisconnect (e : exn) : bool :=
  match e with WebSocketDisconnect => true | _ => false end.
Definition is_Exception (e : exn) : bool := true.

Inductive result (A : Type) : Type :=
| Ok (a : A)
| Raise (e : exn).
Arguments Ok {A} a.
Arguments Raise {A} e.

(** [int(x)] for a float: truncation toward zero; NaN and the infinities
    raise. *)
Definition int_of_float (x : float) : result Z :=
  match x with
  | S754_zero _ => Ok 0
  | S754_finite s m e => Ok (cond_Zopp s (trunc_pos m e))
  | S754_nan => Raise ValueError
  | S754_infinity _ => Raise OverflowError
  end.

(** *** Dictionaries

    A [dict] keeps insertion order; assigning to a key that is present
    keeps its position. *)
Definition dict (V : Type) : Type := list (string * V).

Fixpoint dict_mem {V} (k : string) (d : dict V) : bool :=
  match d with
  | [] => false
  | (k', _) :: d' => if String.eqb k k' then true else dict_mem k d'
  end.

Fixpoint dict_get {V} (k : string) (d : dict V) : option V :=
  match d with
  | [] => None
  | (k', v) :: d' => if String.eqb k k' then Some v else dict_get k d'
  end.

Fixpoint dict_set {V} (k : string) (v : V) (d : dict V) : dict V :=
  match d with
  | [] => [(k, v)]
  | (k', v') :: d' =>
      if String.eqb k k' then (k', v) :: d' else (k', v') :: dict_set k v d'
  end.

Fixpoint dict_del {V} (k : string) (d : dict V) : dict V :=
  match d with
  | [] => []
  | (k', v') :: d' =>
      if String.eqb k k' then d' else (k', v') :: dict_del k d'
  end.

Definition keys {V} (d : dict V) : list string := map fst d.

End Py.
Export Py.

(* ================================================================== *)
(** ** [struct.pack] and [bytes.hex] *)

Module Struct.

(** The format characters the program uses: [B] (unsigned char) and [H]
    (unsigned short).  With the [!] prefix sizes are standard, there is no
    padding, and the byte order is big-endian. *)
Inductive code : Type := fmt_B | fmt_H.

Definition calcsize1 (c : code) : nat :=
  match c with fmt_B => 1%nat | fmt_H => 2%nat end.

Fixpoint parse_codes (s : string) : option (list code) :=
  match s with
  | EmptyString => Some []
  | String c s' =>
      match parse_codes s' with
      | None => None
      | Some cs =>
          if Ascii.eqb c "B"%char then Some (fmt_B :: cs)
          else if Ascii.eqb c "H"%char then Some (fmt_H :: cs)
          else None
      end
  end.

(** A format in network order: [!] followed by the codes. *)
Definition parse_format (fmt : string) : option (list code) :=
  match fmt with
  | String c s' => if Ascii.eqb c "!"%char then parse_codes s' else None
  | EmptyString => None
  end.

Definition calcsize (cs : list code) : nat :=
  fold_right (fun c n => (calcsize1 c + n)%nat) 0%nat cs.

Definition byte_of_Z (z : Z) : byte :=
  match Byte.of_N (Z.to_N (z mod 256)) with
  | Some b => b
  | None => x00
  end.

Definition Z_of_byte (b : byte) : Z := Z.of_N (Byte.to_N b).

(** One value under one code: [struct.error] when it is out of range. *)
Definition pack1 (c : code) (v : Z) : result (list byte) :=
  match c with
  | fmt_B =>
      if (0 <=? v) && (v <=? 255) then Ok [byte_of_Z v]
      else Raise struct_error
  | fmt_H =>
      if (0 <=? v) && (v <=? 65535)
      then Ok [byte_of_Z (Z.shiftr v 8); byte_of_Z (Z.land v 255)]
      else Raise struct_error
  end.

Fixpoint pack_values (cs : list code) (vs : list Z) : result (list byte) :=
  match cs, vs with
  | [], [] => Ok []
  | c :: cs', v :: vs' =>
      match pack1 c v with
      | Raise e => Raise e
      | Ok b =>
          match pack_values cs' vs' with
          | Raise e => Raise e
          | Ok bs => Ok (b ++ bs)
          end
      end
  | _, _ => Raise struct_error
  end.

(** [struct.pack(fmt, *vs)]: the number of values must be the number of
    codes of the format ("pack expected n items for packing (got m)");
    that is checked before any value is converted. *)
Definition pack (fmt : string) (vs : list Z) : result (list byte) :=
  match parse_format fmt with
  | None => Raise struct_error
  | Some cs =>
      if Nat.eqb (List.length cs) (List.length vs) then pack_values cs vs
      else Raise struct_error
  end.

(** Reading an unsigned big-endian field back. *)
Definition unpack_be (bs : list byte) : Z :=
  fold_left (fun acc b => acc * 256 + Z_of_byte b) bs 0.

(** [bytes.hex()]: two lowercase hexadecimal digits per byte. *)
Definition hex_digit (n : Z) : ascii :=
  if n <? 10 then ascii_of_nat (Z.to_nat (48 + n))
  else ascii_of_nat (Z.to_nat (87 + n)).

Fixpoint hex (bs : list byte) : string :=
  match bs with
  | [] => EmptyString
  | b :: bs' =>
      String (hex_digit (Z_of_byte b / 16))
        (String (hex_digit (Z_of_byte b mod 16)) (hex bs'))
  end.

End Struct.


(* ================================================================== *)
(** ** Pydantic models *)

Definition datetime : Type := Z.

(** [status: bool | str]. *)
Inductive bool_or_str : Type :=
| StatusBool (b : bool)
| StatusStr (s : string).

(** Truth value of [data.status] in [1 if data.status else 0]. *)
Definition truthy (v : bool_or_str) : bool :=
  match v with
  | StatusBool b => b
  | StatusStr EmptyString => false
  | StatusStr (String _ _) => true
  end.

Record ReactorDataModel : Type := {
  timestamp : option datetime;
  temperature : float;
  fuel_level : float;
  coolant_level : float;
  waste_level : float;
  status : bool_or_str;
  burn_rate : float;
  actual_burn_rate : float;
  alert_status : Z
}.

(** [ReactorDataModel()]: every field at its default. *)
Definition ReactorDataModel_default : ReactorDataModel := {|
  timestamp := None;
  temperature := S754_zero false;
  fuel_level := S754_zero false;
  coolant_level := S754_zero false;
  waste_level := S754_zero false;
  status := StatusBool false;
  burn_rate := S754_zero false;
  actual_burn_rate := S754_zero false;
  alert_status := 0
|}.

(** [m.model_copy(update={"timestamp": t})]: a new instance. *)
Definition model_copy_timestamp (m : ReactorDataModel) (t : datetime)
  : ReactorDataModel := {|
  timestamp := Some t;
  temperature := temperature m;
  fuel_level := fuel_level m;
  coolant_level := coolant_level m;
  waste_level := waste_level m;
  status := status m;
  burn_rate := burn_rate m;
  actual_burn_rate := actual_burn_rate m;
  alert_status := alert_status m
|}.

(** [value: str | int | float | bool | None]. *)
Inductive command_value : Type :=
| ValueNone
| ValueStr (s : string)
| ValueInt (z : Z)
| ValueFloat (f : float)
| ValueBool (b : bool).

Record ControlCommand : Type := {
  command : string;
  value : command_value
}.

(** What a key of a Socket.IO event may hold ([dict[str, Any]]): a scalar,
    or a list or dictionary, whose content plays no role here. *)
Inductive any : Type :=
| ANone
| ABool (b : bool)
| AInt (z : Z)
| AFloat (f : float)
| AStr (s : string)
| AContainer.

Definition validate_value (a : any) : result command_value :=
  match a with
  | ANone => Ok ValueNone
  | AStr s => Ok (ValueStr s)
  | AInt z => Ok (ValueInt z)
  | AFloat f => Ok (ValueFloat f)
  | ABool b => Ok (ValueBool b)
  | AContainer => Raise ValidationError
  end.

(** [ControlCommand.model_validate(data)]: [command] is required and must
    be a string, [value] is optional, other keys are ignored. *)
Definition ControlCommand_model_validate (data : dict any)
  : result ControlCommand :=
  match dict_get "command" data with
  | Some (AStr c) =>
      match dict_get "value" data with
      | None => Ok {| command := c; value := ValueNone |}
      | Some a =>
          match validate_value a with
          | Ok v => Ok {| command := c; value := v |}
          | Raise e => Raise e
          end
      end
  | _ => Raise ValidationError
  end.

(* ================================================================== *)
(** ** Polars data frames

    A frame is its schema and its rows.  Only what the program uses is
    represented: construction from a schema, construction from the dumps of
    a list of readings (the column types are inferred from the Python
    values), vertical concatenation, emptiness. *)

Module Polars.

Inductive dtype : Type :=
| Datetime | Float32 | Float64 | Boolean | UInt8 | Int64 | Int128 | Utf8
| Null.

Definition dtype_eqb (a b : dtype) : bool :=
  match a, b with
  | Datetime, Datetime | Float32, Float32 | Float64, Float64
  | Boolean, Boolean | UInt8, UInt8 | Int64, Int64 | Int128, Int128
  | Utf8, Utf8 | Null, Null => true
  | _, _ => false
  end.

(** The Python values found in [model_dump()] of a reading. *)
Inductive pyval : Type :=
| PyNone
| PyDatetime (t : datetime)
| PyFloat (f : float)
| PyBool (b : bool)
| PyStr (s : string)
| PyInt (z : Z).

Definition Schema : Type := list (string * dtype).

Record DataFrame : Type := {
  schema : Schema;
  rows : list (list pyval)
}.

Definition column_eqb (a b : string * dtype) : bool :=
  String.eqb (fst a) (fst b) && dtype_eqb (snd a) (snd b).

Fixpoint schema_eqb (a b : Schema) : bool :=
  match a, b with
  | [], [] => true
  | x :: a', y :: b' => column_eqb x y && schema_eqb a' b'
  | _, _ => false
  end.

Definition fits_int64 (v : pyval) : bool :=
  match v with
  | PyInt z => (- 2 ^ 63 <=? z) && (z <? 2 ^ 63)
  | _ => true
  end.

Definition fits_int128 (v : pyval) : bool :=
  match v with
  | PyInt z => (- 2 ^ 127 <=? z) && (z <? 2 ^ 127)
  | _ => true
  end.

(** What a column of type [dt] stores for the Python value [v]; [None] when
    the column does not take the value.  Every column takes [None] as a
    null; a [datetime], a [float], a [bool], a [str] go to the column of
    their type; a string column also takes a [bool], as its text; an [int]
    goes to an [Int64] column when it fits 64 bits, and to an [Int128]
    column. *)
Definition store (dt : dtype) (v : pyval) : option pyval :=
  match dt, v with
  | _, PyNone => Some PyNone
  | Datetime, PyDatetime _ => Some v
  | Float64, PyFloat _ => Some v
  | Boolean, PyBool _ => Some v
  | Utf8, PyStr _ => Some v
  | Utf8, PyBool true => Some (PyStr "true")
  | Utf8, PyBool false => Some (PyStr "false")
  | Int64, PyInt _ => if fits_int64 v then Some v else None
  | Int128, PyInt _ => Some v
  | _, _ => None
  end.

Fixpoint store_row (sch : Schema) (vs : list pyval) : option (list pyval) :=
  match sch, vs with
  | [], [] => Some []
  | (_, dt) :: sch', v :: vs' =>
      match store dt v, store_row sch' vs' with
      | Some c, Some r => Some (c :: r)
      | _, _ => None
      end
  | _, _ => None
  end.

Fixpoint store_rows (sch : Schema) (data : list (list pyval))
  : option (list (list pyval)) :=
  match data with
  | [] => Some []
  | vs :: data' =>
      match store_row sch vs, store_rows sch data' with
      | Some r, Some rs => Some (r :: rs)
      | _, _ => None
      end
  end.

(** [pl.DataFrame(schema=schema)]: no rows. *)
Definition DataFrame_of_schema (sch : Schema) : DataFrame :=
  {| schema := sch; rows := [] |}.

(** The number of rows [pl.DataFrame] looks at to choose the column types
    (its [infer_schema_length], left at the default). *)
Definition infer_schema_length : nat := 100.

(** [pl.concat([a, b])] with the default [how="vertical"]: the frames must
    have the same columns with the same types.  Nothing is cast to a common
    type (that is [how="vertical_relaxed"]): a column of another type is a
    [SchemaError], another number of columns a [ShapeError]. *)
Definition concat (a b : DataFrame) : result DataFrame :=
  if negb (Nat.eqb (List.length (schema a)) (List.length (schema b)))
  then Raise ShapeError
  else if schema_eqb (schema a) (schema b)
  then Ok {| schema := schema a; rows := rows a ++ rows b |}
  else Raise SchemaError.

Definition is_empty (a : DataFrame) : bool :=
  match rows a with [] => true | _ => false end.

Definition height (a : DataFrame) : nat := List.length (rows a).

End Polars.
Export Polars.

(** [m.model_dump()]: the fields in declaration order. *)
Definition model_dump (m : ReactorDataModel) : dict pyval :=
  [ ("timestamp",
      match timestamp m with Some t => PyDatetime t | None => PyNone end);
    ("temperature", PyFloat (temperature m));
    ("fuel_level", PyFloat (fuel_level m));
    ("coolant_level", PyFloat (coolant_level m));
    ("waste_level", PyFloat (waste_level m));
    ("status",
      match status m with
      | StatusBool b => PyBool b
      | StatusStr s => PyStr s
      end);
    ("burn_rate", PyFloat (burn_rate m));
    ("actual_burn_rate", PyFloat (actual_burn_rate m));
    ("alert_status", PyInt (alert_status m)) ].

(** The schema written in [_load_or_initialize_log]. *)
Definition log_schema : Schema :=
  [ ("timestamp", Datetime);
    ("temperature", Float32);
    ("fuel_level", Float32);
    ("coolant_level", Float32);
    ("waste_level", Float32);
    ("status", Boolean);
    ("burn_rate", Float32);
    ("actual_burn_rate", Float32);
    ("alert_status", UInt8) ].

(** The column types [pl.DataFrame] chooses for the dumps of the readings
    [window]: for each field the common type of its values.  The values of
    one field are of one Python type, but for three fields: a [timestamp]
    is [None] or a [datetime], and the column is [Datetime] as soon as one
    is set; a [status] is a [bool] or a [str], and the column is [Boolean]
    only when all are [bool], the string type otherwise; an [alert_status]
    beyond 64 bits makes its column [Int128]. *)
Definition timestamp_dtype (window : list ReactorDataModel) : dtype :=
  if forallb (fun m => match timestamp m with None => true | Some _ => false end)
       window
  then Null else Datetime.

Definition status_dtype (window : list ReactorDataModel) : dtype :=
  if forallb (fun m => match status m with
                       | StatusBool _ => true
                       | StatusStr _ => false
                       end) window
  then Boolean else Utf8.

Definition alert_status_dtype (window : list ReactorDataModel) : dtype :=
  if forallb (fun m => fits_int64 (PyInt (alert_status m))) window
  then Int64 else Int128.

Definition dumps_schema (window : list ReactorDataModel) : Schema :=
  [ ("timestamp", timestamp_dtype window);
    ("temperature", Float64);
    ("fuel_level", Float64);
    ("coolant_level", Float64);
    ("waste_level", Float64);
    ("status", status_dtype window);
    ("burn_rate", Float64);
    ("actual_burn_rate", Float64);
    ("alert_status", alert_status_dtype window) ].

(** [pl.DataFrame([item.model_dump() for item in items])].  An integer
    that does not fit 128 bits is refused when the values are read
    ([OverflowError]).  The column types come from the first
    [infer_schema_length] rows; then every row is stored under them: in a
    string column a [bool] becomes ['true'] or ['false'], and a value that
    a column does not take (it can only come after the rows that gave the
    types) is a [ComputeError]. *)
Definition DataFrame_of_dumps (items : list ReactorDataModel)
  : result DataFrame :=
  match items with
  | [] => Ok {| schema := []; rows := [] |}
  | _ :: _ =>
      if negb (forallb (fun m => fits_int128 (PyInt (alert_status m))) items)
      then Raise OverflowError
      else
        let sch := dumps_schema (firstn infer_schema_length items) in
        match store_rows sch (map (fun m => map snd (model_dump m)) items) with
        | Some rs => Ok {| schema := sch; rows := rs |}
        | None => Raise ComputeError
        end
  end.

(* ================================================================== *)
(** ** Server state *)

(** A WebSocket object is known by its identity. *)
Definition WebSocket : Type := nat.

Record Settings : Type := {
  HOST : string;
  PORT : Z;
  SECRET_KEY : string;
  LOG_FILE : string;
  LOG_INTERVAL_SECONDS : Z
}.

Definition default_settings : Settings := {|
  HOST := "0.0.0.0";
  PORT := 8765;
  SECRET_KEY := "supersecretkey";
  LOG_FILE := "reactor_log.parquet";
  LOG_INTERVAL_SECONDS := 60
|}.

(** One constructor per [logger] call of the program. *)
Inductive log_record : Type :=
| info_loading_existing (path : string)
| info_initializing_new
| info_flushed (n : nat)
| info_saved (path : string)
| info_cc_connected (computer_id : string)
| debug_received (computer_id data : string)
| error_parse_json
| info_cc_disconnected (computer_id : string)
| debug_sent_esp
| error_send_esp (e : exn)
| info_esp_connected (sid : string)
| info_esp_disconnected (sid : string)
| info_command (c : ControlCommand)
| error_send_command (computer_id : string) (e : exn)
| error_invalid_command (sid : string) (data : dict any) (e : exn).

Record DataManager : Type := {
  reactor_data : ReactorDataModel;
  data_buffer : list ReactorDataModel;
  log_file : string;
  data_log : DataFrame
}.

Record ConnectionManager : Type := {
  computercraft_connections : dict WebSocket;
  esp8266_connected : bool
}.

(** The two global managers and the world around them: the Parquet files on
    disk, the clock read by [datetime.now()], the sockets accepted so far,
    the transports that fail on send, what was sent on each WebSocket, what
    was emitted on Socket.IO, and the log. *)
Record Server : Type := {
  conn_manager : ConnectionManager;
  data_manager : DataManager;
  files : dict DataFrame;
  wall_clock : datetime;
  accepted : list WebSocket;
  broken : list WebSocket;
  ws_sent : list (WebSocket * string);
  sio_emitted : list (string * dict string);
  logs : list log_record
}.

Definition set_conn_manager (c : ConnectionManager) (s : Server) : Server :=
  {| conn_manager := c; data_manager := data_manager s; files := files s;
     wall_clock := wall_clock s; accepted := accepted s; broken := broken s;
     ws_sent := ws_sent s; sio_emitted := sio_emitted s; logs := logs s |}.

Definition set_data_manager (d : DataManager) (s : Server) : Server :=
  {| conn_manager := conn_manager s; data_manager := d; files := files s;
     wall_clock := wall_clock s; accepted := accepted s; broken := broken s;
     ws_sent := ws_sent s; sio_emitted := sio_emitted s; logs := logs s |}.

Definition set_files (f : dict DataFrame) (s : Server) : Server :=
  {| conn_manager := conn_manager s; data_manager := data_manager s; files := f;
     wall_clock := wall_clock s; accepted := accepted s; broken := broken s;
     ws_sent := ws_sent s; sio_emitted := sio_emitted s; logs := logs s |}.

Definition set_wall_clock (t : datetime) (s : Server) : Server :=
  {| conn_manager := conn_manager s; data_manager := data_manager s;
     files := files s; wall_clock := t; accepted := accepted s;
     broken := broken s; ws_sent := ws_sent s; sio_emitted := sio_emitted s;
     logs := logs s |}.

Definition set_accepted (a : list WebSocket) (s : Server) : Server :=
  {| conn_manager := conn_manager s; data_manager := data_manager s;
     files := files s; wall_clock := wall_clock s; accepted := a;
     broken := broken s; ws_sent := ws_sent s; sio_emitted := sio_emitted s;
     logs := logs s |}.

Definition set_ws_sent (w : list (WebSocket * string)) (s : Server) : Server :=
  {| conn_manager := conn_manager s; data_manager := data_manager s;
     files := files s; wall_clock := wall_clock s; accepted := accepted s;
     broken := broken s; ws_sent := w; sio_emitted := sio_emitted s;
     logs := logs s |}.

Definition set_sio_emitted (e : list (string * dict string)) (s : Server)
  : Server :=
  {| conn_manager := conn_manager s; data_manager := data_manager s;
     files := files s; wall_clock := wall_clock s; accepted := accepted s;
     broken := broken s; ws_sent := ws_sent s; sio_emitted := e;
     logs := logs s |}.

Definition set_logs (l : list log_record) (s : Server) : Server :=
  {| conn_manager := conn_manager s; data_manager := data_manager s;
     files := files s; wall_clock := wall_clock s; accepted := accepted s;
     broken := broken s; ws_sent := ws_sent s; sio_emitted := sio_emitted s;
     logs := l |}.

Definition is_broken (ws : WebSocket) (s : Server) : bool :=
  existsb (Nat.eqb ws) (broken s).

(* ================================================================== *)
(** ** Coroutines: state and exceptions *)

Definition M (A : Type) : Type := Server -> result A * Server.

Definition ret {A} (a : A) : M A := fun s => (Ok a, s).

Definition raise {A} (e : exn) : M A := fun s => (Raise e, s).

Definition bind {A B} (c : M A) (k : A -> M B) : M B :=
  fun s =>
    match c s with
    | (Ok a, s') => k a s'
    | (Raise e, s') => (Raise e, s')
    end.

Notation "x <- c ;; k" := (bind c (fun x => k))
  (at level 61, c at next level, right associativity).
Notation "c ;;; k" := (bind c (fun _ => k))
  (at level 61, right associativity).

(** [try: body / except E as e: handler e], where [catches] tells which
    exceptions are instances of [E]. *)
Definition try_except {A} (body : M A) (catches : exn -> bool)
  (handler : exn -> M A) : M A :=
  fun s =>
    match body s with
    | (Ok a, s') => (Ok a, s')
    | (Raise e, s') => if catches e then handler e s' else (Raise e, s')
    end.

Definition lift {A} (r : result A) : M A := fun s => (r, s).

Definition gets {A} (f : Server -> A) : M A := fun s => (Ok (f s), s).

Definition modify (f : Server -> Server) : M unit := fun s => (Ok tt, f s).

Definition logger (r : log_record) : M unit :=
  modify (fun s => set_logs (logs s ++ [r]) s).

Definition datetime_now : M datetime := gets wall_clock.

(* ================================================================== *)
(** ** [DataManager] *)

(** [_load_or_initialize_log]. *)
Definition _load_or_initialize_log (path : string) : M DataFrame :=
  fs <- gets files ;;
  match dict_get path fs with
  | Some df =>
      logger (info_loading_existing path) ;;;
      ret df
  | None =>
      logger info_initializing_new ;;;
      ret (DataFrame_of_schema log_schema)
  end.

(** [DataManager.__init__]. *)
Definition DataManager_init (path : string) : M DataManager :=
  df <- _load_or_initialize_log path ;;
  ret {| reactor_data := ReactorDataModel_default;
         data_buffer := [];
         log_file := path;
         data_log := df |}.

Definition set_reactor_data (r : ReactorDataModel) : M unit :=
  modify (fun s =>
    let d := data_manager s in
    set_data_manager
      {| reactor_data := r; data_buffer := data_buffer d;
         log_file := log_file d; data_log := data_log d |} s).

Definition set_data_buffer (b : list ReactorDataModel) : M unit :=
  modify (fun s =>
    let d := data_manager s in
    set_data_manager
      {| reactor_data := reactor_data d; data_buffer := b;
         log_file := log_file d; data_log := data_log d |} s).

Definition set_data_log (df : DataFrame) : M unit :=
  modify (fun s =>
    let d := data_manager s in
    set_data_manager
      {| reactor_data := reactor_data d; data_buffer := data_buffer d;
         log_file := log_file d; data_log := df |} s).

(** [add_log_entry]. *)
Definition add_log_entry (reactor_data : ReactorDataModel) : M unit :=
  now <- datetime_now ;;
  let log_entry := model_copy_timestamp reactor_data now in
  buf <- gets (fun s => data_buffer (data_manager s)) ;;
  set_data_buffer (buf ++ [log_entry]).

(** [flush_buffer_to_log].  The [return] on an empty buffer leaves the
    function, so nothing is logged then. *)
Definition flush_buffer_to_log : M unit :=
  buf <- gets (fun s => data_buffer (data_manager s)) ;;
  match buf with
  | [] => ret tt
  | _ :: _ =>
      new_data <- lift (DataFrame_of_dumps buf) ;;
      old <- gets (fun s => data_log (data_manager s)) ;;
      merged <- lift (concat old new_data) ;;
      set_data_log merged ;;;
      set_data_buffer [] ;;;
      logger (info_flushed (height new_data))
  end.

(** [save_log_to_disk]. *)
Definition save_log_to_disk : M unit :=
  flush_buffer_to_log ;;;
  d <- gets data_manager ;;
  if negb (is_empty (data_log d)) then
    modify (fun s =>
      set_files (dict_set (log_file d) (data_log d) (files s)) s) ;;;
    logger (info_saved (log_file d))
  else ret tt.

(** [periodic_data_saver], for a given number of timer ticks: the loop ends
    only by an exception of [save_log_to_disk]. *)
Fixpoint periodic_data_saver (ticks : nat) : M unit :=
  match ticks with
  | O => ret tt
  | S n => save_log_to_disk ;;; periodic_data_saver n
  end.

(* ================================================================== *)
(** ** [ConnectionManager] *)

Definition add_computercraft (computer_id : string) (websocket : WebSocket)
  : M unit :=
  modify (fun s =>
    let c := conn_manager s in
    set_conn_manager
      {| computercraft_connections :=
           dict_set computer_id websocket (computercraft_connections c);
         esp8266_connected := esp8266_connected c |} s).

Definition remove_computercraft (computer_id : string) : M unit :=
  modify (fun s =>
    let c := conn_manager s in
    if dict_mem computer_id (computercraft_connections c) then
      set_conn_manager
        {| computercraft_connections :=
             dict_del computer_id (computercraft_connections c);
           esp8266_connected := esp8266_connected c |} s
    else s).

Definition set_esp8266_connected (status : bool) : M unit :=
  modify (fun s =>
    let c := conn_manager s in
    set_conn_manager
      {| computercraft_connections := computercraft_connections c;
         esp8266_connected := status |} s).

(* ================================================================== *)
(** ** Handlers *)

(** What [await websocket.receive_text()] gives, one after the other: a text
    frame, with the time on the clock when it is handed over, or the
    disconnection of the peer. *)
Inductive ws_event : Type :=
| text_frame (at_time : datetime) (data : string)
| peer_disconnects.

(** Where a connection handler stands when its events are used up. *)
Inductive handler_state : Type :=
| Receiving      (* suspended in [receive_text], connection open *)
| Returned.      (* the coroutine has returned *)

(** What other tasks may do to the registry while a coroutine is suspended
    in an [await]: a producer connects, a producer disconnects, the ESP8266
    comes or goes.  A schedule gives, for each send of a fan-out, what
    happens while that send is suspended (at most one such step). *)
Inductive registry_op : Type :=
| producer_connects (computer_id : string) (websocket : WebSocket)
| producer_disconnects (computer_id : string)
| esp_presence (status : bool).

Definition schedule : Type := list (option registry_op).

Definition other_task (o : option registry_op) : M unit :=
  match o with
  | None => ret tt
  | Some (producer_connects computer_id websocket) =>
      add_computercraft computer_id websocket
  | Some (producer_disconnects computer_id) => remove_computercraft computer_id
  | Some (esp_presence status) => set_esp8266_connected status
  end.

(** [await websocket.send_text(text)]: a suspension point; a broken
    transport raises. *)
Definition send_text (websocket : WebSocket) (text : string)
  (meanwhile : option registry_op) : M unit :=
  other_task meanwhile ;;;
  b <- gets (is_broken websocket) ;;
  if b then raise ConnectionClosed
  else modify (fun s => set_ws_sent (ws_sent s ++ [(websocket, text)]) s).

(** [await sio.emit(event, payload)]. *)
Definition sio_emit (event : string) (payload : dict string) : M unit :=
  modify (fun s => set_sio_emitted (sio_emitted s ++ [(event, payload)]) s).

(** [min(int(x * 10), 65535)]. *)
Definition scaled (x : float) : result Z :=
  match int_of_float (fmul x (float_of_Z 10)) with
  | Ok n => Ok (Z.min n 65535)
  | Raise e => Raise e
  end.

Definition packet_format : string := "!BHHHHBB".

(** [send_to_esp8266]. *)
Definition send_to_esp8266 (data : ReactorDataModel) : M unit :=
  try_except
    (t <- lift (scaled (temperature data)) ;;
     f <- lift (scaled (fuel_level data)) ;;
     c <- lift (scaled (coolant_level data)) ;;
     w <- lift (scaled (waste_level data)) ;;
     packet <- lift (Struct.pack packet_format
                       [ 170; t; f; c; w;
                         if truthy (status data) then 1 else 0;
                         alert_status data;
                         85 ]) ;;
     sio_emit "reactor_data" [("data", Struct.hex packet)] ;;;
     logger debug_sent_esp)
    is_Exception
    (fun e => logger (error_send_esp e)).

Section Handlers.

Variable settings : Settings.

(** pydantic's JSON validation of a [ReactorDataModel]: the model when the
    text is JSON that fits the fields, nothing otherwise. *)
Variable validate_json : string -> option ReactorDataModel.

(** pydantic's JSON serialisation of a [ControlCommand]. *)
Variable dump_json : ControlCommand -> string.

(** [ReactorDataModel.model_validate_json(data)]: pydantic reports invalid
    JSON and invalid fields alike with its own [ValidationError]. *)
Definition ReactorDataModel_model_validate_json (data : string)
  : M ReactorDataModel :=
  match validate_json data with
  | Some m => ret m
  | None => raise ValidationError
  end.

(** [get_secret_key]. *)
Definition get_secret_key (secret : string) : M string :=
  if negb (String.eqb secret (SECRET_KEY settings))
  then raise (HTTPException 403)
  else ret secret.

(** The body of the receive loop for one text frame. *)
Definition on_text (computer_id data : string) : M unit :=
  logger (debug_received computer_id data) ;;;
  try_except
    (reactor_data <- ReactorDataModel_model_validate_json data ;;
     set_reactor_data reactor_data ;;;
     add_log_entry reactor_data ;;;
     esp <- gets (fun s => esp8266_connected (conn_manager s)) ;;
     if esp then send_to_esp8266 reactor_data else ret tt)
    is_JSONDecodeError
    (fun _ => logger error_parse_json).

(** [while True: data = await websocket.receive_text(); ...]. *)
Fixpoint receive_loop (computer_id : string) (inbox : list ws_event)
  : M handler_state :=
  match inbox with
  | [] => ret Receiving
  | peer_disconnects :: _ => raise WebSocketDisconnect
  | text_frame t data :: rest =>
      modify (set_wall_clock t) ;;;
      on_text computer_id data ;;;
      receive_loop computer_id rest
  end.

(** [websocket_endpoint], the body of the route. *)
Definition websocket_endpoint (websocket : WebSocket) (computer_id : string)
  (inbox : list ws_event) : M handler_state :=
  modify (fun s => set_accepted (accepted s ++ [websocket]) s) ;;;
  add_computercraft computer_id websocket ;;;
  logger (info_cc_connected computer_id) ;;;
  try_except
    (receive_loop computer_id inbox)
    is_WebSocketDisconnect
    (fun _ =>
       logger (info_cc_disconnected computer_id) ;;;
       remove_computercraft computer_id ;;;
       ret Returned).

(** The route [/ws/computercraft/{computer_id}]: FastAPI resolves
    [Depends(get_secret_key)] first and calls the endpoint with its
    result; an exception of the dependency ends the request. *)
Definition websocket_route (websocket : WebSocket) (computer_id : string)
  (secret : string) (inbox : list ws_event) : M handler_state :=
  _ <- get_secret_key secret ;;
  websocket_endpoint websocket computer_id inbox.

(** Socket.IO [connect] and [disconnect]. *)
Definition connect (sid : string) : M unit :=
  logger (info_esp_connected sid) ;;;
  set_esp8266_connected true.

Definition disconnect (sid : string) : M unit :=
  logger (info_esp_disconnected sid) ;;;
  set_esp8266_connected false.

(** The body of the loop of [control_command]:
    [try: await websocket.send_text(command_data)
     except Exception as e: logger.error(...)]. *)
Definition send_guarded (computer_id : string) (websocket : WebSocket)
  (command_data : string) (meanwhile : option registry_op) : M unit :=
  try_except
    (send_text websocket command_data meanwhile)
    is_Exception
    (fun e => logger (error_send_command computer_id e)).

(** [for computer_id, websocket in
      conn_manager.computercraft_connections.items(): ...]

    The loop walks the dictionary itself.  Each step of its iterator first
    compares the size of the dictionary with the size it had when the loop
    began ("dictionary changed size during iteration"), then takes the
    entry at its position.  [remaining] counts the entries still to
    visit. *)
Fixpoint fan_out (remaining size0 : nat) (command_data : string)
  (sched : schedule) : M unit :=
  conns <- gets (fun s => computercraft_connections (conn_manager s)) ;;
  if negb (Nat.eqb (List.length conns) size0) then raise RuntimeError
  else
    match remaining with
    | O => ret tt
    | S remaining' =>
        match nth_error conns (size0 - remaining) with
        | None => ret tt
        | Some (computer_id, websocket) =>
            send_guarded computer_id websocket command_data
              (hd None sched) ;;;
            fan_out remaining' size0 command_data (tl sched)
        end
    end.

(** Socket.IO [control_command]. *)
Definition control_command (sid : string) (data : dict any)
  (sched : schedule) : M unit :=
  try_except
    (command <- lift (ControlCommand_model_validate data) ;;
     logger (info_command command) ;;;
     let command_data := dump_json command in
     n <- gets (fun s =>
            List.length (computercraft_connections (conn_manager s))) ;;
     fan_out n n command_data sched)
    is_Exception
    (fun e => logger (error_invalid_command sid data e)).

(** [get_status]. *)
Definition get_status : M (list string * bool * ReactorDataModel) :=
  s <- gets (fun s => s) ;;
  ret (keys (computercraft_connections (conn_manager s)),
       esp8266_connected (conn_manager s),
       reactor_data (data_manager s)).

(** *** The fan-out as the specification words it

    "[listProducers()] returns a copy of current entries", and
    [dispatchCommand] sends to "each entry in
    [ConnectionRegistry.listProducers()]". *)
Definition listProducers : M (dict WebSocket) :=
  gets (fun s => computercraft_connections (conn_manager s)).

Fixpoint fan_out_snapshot (snapshot : dict WebSocket) (command_data : string)
  (sched : schedule) : M unit :=
  match snapshot with
  | [] => ret tt
  | (computer_id, websocket) :: snapshot' =>
      send_guarded computer_id websocket command_data (hd None sched) ;;;
      fan_out_snapshot snapshot' command_data (tl sched)
  end.

Definition dispatchCommand_snapshot (sid : string) (data : dict any)
  (sched : schedule) : M unit :=
  try_except
    (command <- lift (ControlCommand_model_validate data) ;;
     logger (info_command command) ;;;
     let command_data := dump_json command in
     snapshot <- listProducers ;;
     fan_out_snapshot snapshot command_data sched)
    is_Exception
    (fun e => logger (error_invalid_command sid data e)).

End Handlers.

(** The process right after start-up: both managers constructed, nothing
    connected, nothing sent. *)
Definition startup (settings : Settings) (fs : dict DataFrame)
  (t : datetime) (bad : list WebSocket) : Server :=
  let blank := {|
    conn_manager :=
      {| computercraft_connections := []; esp8266_connected := false |};
    data_manager :=
      {| reactor_data := ReactorDataModel_default; data_buffer := [];
         log_file := LOG_FILE settings;
         data_log := DataFrame_of_schema log_schema |};
    files := fs;
    wall_clock := t;
    accepted := [];
    broken := bad;
    ws_sent := [];
    sio_emitted := [];
    logs := []
  |} in
  match DataManager_init (LOG_FILE settings) blank with
  | (Ok d, s) => set_data_manager d s
  | (Raise _, s) => s
  end.

(* ================================================================== *)
(** ** Vocabulary of the statements *)

(** The state a successful flush leaves. *)
Definition flushed (merged : DataFrame) (n : nat) (s : Server) : Server :=
  set_logs (logs s ++ [info_flushed n])
    (set_data_manager
       {| reactor_data := reactor_data (data_manager s);
          data_buffer := [];
          log_file := log_file (data_manager s);
          data_log := merged |} s).

Definition connections (s : Server) : dict WebSocket :=
  computercraft_connections (conn_manager s).

(** The registry after another task's step. *)
Definition apply_op (o : option registry_op) (s : Server) : Server :=
  snd (other_task o s).

(** A schedule in which no other task touches the registry. *)
Definition quiet (sched : schedule) : bool :=
  forallb (fun o => match o with None => true | Some _ => false end) sched.

(** The same state with every transport sound. *)
Definition mend (s : Server) : Server :=
  {| conn_manager := conn_manager s; data_manager := data_manager s;
     files := files s; wall_clock := wall_clock s; accepted := accepted s;
     broken := []; ws_sent := ws_sent s; sio_emitted := sio_emitted s;
     logs := logs s |}.

(** [s] is a run with failing transports and [s'] the run of the same code
    with sound ones: same registry, and [s] has sent, beyond [w0], what
    [s'] has sent to the transports that are sound in [s]. *)
Definition shadows (B : WebSocket -> bool) (w0 : list (WebSocket * string))
  (s s' : Server) : Prop :=
  conn_manager s' = conn_manager s
  /\ (forall ws, is_broken ws s = B ws)
  /\ (forall ws, is_broken ws s' = false)
  /\ exists attempted : list (WebSocket * string),
       ws_sent s' = w0 ++ attempted
       /\ ws_sent s = w0 ++ filter (fun p => negb (B (fst p))) attempted.

(** The state in which the fan-out of a validated command starts. *)
Definition announced (c : ControlCommand) (s : Server) : Server :=
  set_logs (logs s ++ [info_command c]) s.

(** The state after one guarded send to an entry of the registry: the text
    is on the wire, or the failure is in the log. *)
Definition deliver (command_data : string) (s : Server)
  (entry : string * WebSocket) : Server :=
  if is_broken (snd entry) s
  then set_logs (logs s ++ [error_send_command (fst entry) ConnectionClosed]) s
  else set_ws_sent (ws_sent s ++ [(snd entry, command_data)]) s.

(** What a list of entries receives, and what is logged for it. *)
Definition delivered (command_data : string) (s : Server)
  (entries : dict WebSocket) : list (WebSocket * string) :=
  map (fun e => (snd e, command_data))
    (filter (fun e => negb (is_broken (snd e) s)) entries).

Definition send_errors (s : Server) (entries : dict WebSocket)
  : list log_record :=
  map (fun e => error_send_command (fst e) ConnectionClosed)
    (filter (fun e => is_broken (snd e) s) entries).

(** The bounds of the round-trip property, [0.0] and [6553.5], and the
    readings between them. *)
Definition zero : float := S754_zero false.
Definition max_exact : float := float_lit 13107 (-1).

Definition within_bounds (x : float) : bool :=
  valid_binary prec emax x && fleb zero x && fleb x max_exact.

(** [round(x)] for a float, as the specification has it: the nearest
    integer, ties to the even one. *)
Definition round_pos (m : positive) (e : Z) : Z :=
  match e with
  | Zneg p =>
      let q := Z.shiftr (Zpos m) (Zpos p) in
      let r := Z.land (Zpos m) (Z.ones (Zpos p)) in
      let half := Z.shiftl 1 (Zpos p - 1) in
      match r ?= half with
      | Lt => q
      | Gt => q + 1
      | Eq => if Z.even q then q else q + 1
      end
  | _ => Z.shiftl (Zpos m) e
  end.

Definition round_float (x : float) : result Z :=
  match x with
  | S754_zero _ => Ok 0
  | S754_finite s m e => Ok (cond_Zopp s (round_pos m e))
  | S754_nan => Raise ValueError
  | S754_infinity _ => Raise OverflowError
  end.

Definition clamp_u16 (n : Z) : Z := Z.max 0 (Z.min n 65535).

(** The field as the specification words it:
    [round(value * 10)] clamped to [0, 65535]. *)
Definition scaled_rounded (x : float) : result Z :=
  match round_float (fmul x (float_of_Z 10)) with
  | Ok n => Ok (clamp_u16 n)
  | Raise e => Raise e
  end.

(* ================================================================== *)
(** ** Sample data *)

(** The reading of the end-to-end scenario:
    [{temperature: 350.2, fuel_level: 80.0, coolant_level: 95.5,
      waste_level: 10.0, status: true, alert_status: 2}]. *)
Definition reading_e2e : ReactorDataModel := {|
  timestamp := None;
  temperature := float_lit 6160783552754483 (-44);
  fuel_level := float_of_Z 80;
  coolant_level := float_lit 191 (-1);
  waste_level := float_of_Z 10;
  status := StatusBool true;
  burn_rate := S754_zero false;
  actual_burn_rate := S754_zero false;
  alert_status := 2
|}.

(** A second reading, which carries a timestamp chosen by the producer. *)
Definition reading_b : ReactorDataModel := {|
  timestamp := Some 7;
  temperature := float_of_Z 10000;
  fuel_level := float_lit 3 (-4);
  coolant_level := float_of_Z 1;
  waste_level := S754_zero false;
  status := StatusBool false;
  burn_rate := S754_zero false;
  actual_burn_rate := S754_zero false;
  alert_status := 0
|}.

(** A fresh process: no log file, clock at 1000, every transport sound. *)
Definition fresh : Server := startup default_settings [] 1000 [].

(** A JSON validator that knows two texts. *)
Definition sample_validate_json (data : string) : option ReactorDataModel :=
  if String.eqb data "e2e" then Some reading_e2e
  else if String.eqb data "b" then Some reading_b
  else None.

Definition sample_dump_json (c : ControlCommand) : string := command c.


(** Three producers connected, the transport of the first one broken or not. *)
Definition three_producers (bad : list WebSocket) : Server :=
  set_conn_manager
    {| computercraft_connections := [("A", 1%nat); ("B", 2%nat); ("C", 3%nat)];
       esp8266_connected := true |}
    (startup default_settings [] 1000 bad).

(** The event [{command: "scram"}]. *)
Definition scram : dict any := [("command", AStr "scram")].

(** The same three producers with the transport of A broken. *)
Definition a_broken : Server := three_producers [1%nat].

(** What [scram] validates to. *)
Definition scram_command : ControlCommand :=
  {| command := "scram"; value := ValueNone |}.

(** The fresh process after readings A and B were appended. *)
Definition two_buffered : Server :=
  snd ((add_log_entry reading_e2e ;;; add_log_entry reading_b) fresh).


(* ================================================================== *)
(** ** The rest of the program *)

(** [DataFrame.tail(n)]: the last [n] rows; for a negative [n], all rows
    but the first [-n]. *)
Definition DataFrame_tail (n : Z) (df : DataFrame) : DataFrame :=
  let h := Z.of_nat (height df) in
  let k := if n <? 0 then Z.max 0 (h + n) else n in
  {| schema := schema df;
     rows := skipn (Z.to_nat (h - Z.min k h)) (rows df) |}.

(** [DataFrame.to_dicts()]: one dictionary per row, keyed by column. *)
Definition DataFrame_to_dicts (df : DataFrame) : list (dict pyval) :=
  map (fun row => combine (map fst (schema df)) row) (rows df).

(** [get_data_log], the route [/data]. *)
Definition get_data_log (limit : Z) : M (list (dict pyval)) :=
  flush_buffer_to_log ;;;
  df <- gets (fun s => data_log (data_manager s)) ;;
  ret (DataFrame_to_dicts (DataFrame_tail limit df)).

Section Resume.

Variable validate_json : string -> option ReactorDataModel.

(** A connection handler that is suspended in [receive_text] and goes on
    with the events that arrive next: the rest of [websocket_endpoint]
    after [accept], registration and the first log line. *)
Definition websocket_resume (computer_id : string) (inbox : list ws_event)
  : M handler_state :=
  try_except
    (receive_loop validate_json computer_id inbox)
    is_WebSocketDisconnect
    (fun _ =>
       logger (info_cc_disconnected computer_id) ;;;
       remove_computercraft computer_id ;;;
       ret Returned).

(** A frame that validates. *)
Definition frame_valid (ev : ws_event) : bool :=
  match ev with
  | text_frame _ data =>
      match validate_json data with Some _ => true | None => false end
  | peer_disconnects => false
  end.

(** The copies that [add_log_entry] makes for a run of frames, each with
    the time at which its frame was handed over. *)
Fixpoint stamped (inbox : list ws_event) : list ReactorDataModel :=
  match inbox with
  | [] => []
  | text_frame t data :: rest =>
      match validate_json data with
      | Some r => model_copy_timestamp r t :: stamped rest
      | None => stamped rest
      end
  | peer_disconnects :: rest => stamped rest
  end.

(** The reading of the last frame of a run, or [r0] when there is none. *)
Fixpoint last_reading (r0 : ReactorDataModel) (inbox : list ws_event)
  : ReactorDataModel :=
  match inbox with
  | [] => r0
  | text_frame _ data :: rest =>
      match validate_json data with
      | Some r => last_reading r rest
      | None => last_reading r0 rest
      end
  | peer_disconnects :: rest => last_reading r0 rest
  end.

End Resume.

(** The state in which a handler enters its receive loop: socket accepted,
    producer registered, connection logged. *)
Definition opened (websocket : WebSocket) (computer_id : string) (s : Server)
  : Server :=
  let s1 := set_accepted (accepted s ++ [websocket]) s in
  let s2 := snd (add_computercraft computer_id websocket s1) in
  set_logs (logs s2 ++ [info_cc_connected computer_id]) s2.

(** No producer identifier is registered twice. *)
Definition unique_ids (s : Server) : Prop := NoDup (keys (connections s)).

(** The latest time found in a run of frames, or [t0]. *)
Fixpoint last_time (t0 : datetime) (inbox : list ws_event) : datetime :=
  match inbox with
  | [] => t0
  | text_frame t _ :: rest => last_time t rest
  | peer_disconnects :: rest => last_time t0 rest
  end.

(** A reading as [add_log_entry] buffers it from the usual payload: stamped,
    with a boolean status and an alert code that fits 64 bits. *)
Definition plain_reading (m : ReactorDataModel) : bool :=
  match timestamp m, status m with
  | Some _, StatusBool _ => fits_int64 (PyInt (alert_status m))
  | _, _ => false
  end.

(** A log file whose columns have the types that Polars infers for the
    readings, holding one row, and the process started on it with one
    reading buffered. *)
Definition inferred_schema : Schema :=
  [ ("timestamp", Datetime);
    ("temperature", Float64);
    ("fuel_level", Float64);
    ("coolant_level", Float64);
    ("waste_level", Float64);
    ("status", Boolean);
    ("burn_rate", Float64);
    ("actual_burn_rate", Float64);
    ("alert_status", Int64) ].

Definition stored_log : DataFrame :=
  {| schema := inferred_schema;
     rows := [map snd (model_dump (model_copy_timestamp reading_b 500))] |}.

Definition restarted : Server :=
  startup default_settings [("reactor_log.parquet", stored_log)] 1000 [].

Definition restarted_buffered : Server :=
  snd (add_log_entry reading_e2e restarted).

(** A log file whose [status] column is text, and the process started on it
    with two readings buffered: one whose status is a [bool], one whose
    status is a [str]. *)
Definition text_status_schema : Schema :=
  [ ("timestamp", Datetime);
    ("temperature", Float64);
    ("fuel_level", Float64);
    ("coolant_level", Float64);
    ("waste_level", Float64);
    ("status", Utf8);
    ("burn_rate", Float64);
    ("actual_burn_rate", Float64);
    ("alert_status", Int64) ].

Definition reading_on : ReactorDataModel := {|
  timestamp := None;
  temperature := float_of_Z 300;
  fuel_level := float_of_Z 50;
  coolant_level := float_of_Z 50;
  waste_level := S754_zero false;
  status := StatusStr "on";
  burn_rate := float_of_Z 1;
  actual_burn_rate := float_of_Z 1;
  alert_status := 0
|}.

Definition reading_true : ReactorDataModel := {|
  timestamp := None;
  temperature := float_of_Z 310;
  fuel_level := float_of_Z 49;
  coolant_level := float_of_Z 50;
  waste_level := S754_zero false;
  status := StatusBool true;
  burn_rate := float_of_Z 1;
  actual_burn_rate := float_of_Z 1;
  alert_status := 1
|}.

Definition restarted_text : Server :=
  startup default_settings
    [("reactor_log.parquet", DataFrame_of_schema text_status_schema)] 1000 [].

Definition text_buffered : Server :=
  snd ((add_log_entry reading_true ;;; add_log_entry reading_on)
         restarted_text).

(** A reading whose alert code needs more than 64 bits, and one whose alert
    code needs more than 128. *)
Definition reading_wide : ReactorDataModel := {|
  timestamp := Some 9;
  temperature := float_of_Z 300;
  fuel_level := float_of_Z 50;
  coolant_level := float_of_Z 50;
  waste_level := S754_zero false;
  status := StatusBool true;
  burn_rate := float_of_Z 1;
  actual_burn_rate := float_of_Z 1;
  alert_status := 2 ^ 70
|}.

Definition reading_huge : ReactorDataModel := {|
  timestamp := Some 9;
  temperature := float_of_Z 300;
  fuel_level := float_of_Z 50;
  coolant_level := float_of_Z 50;
  waste_level := S754_zero false;
  status := StatusBool true;
  burn_rate := float_of_Z 1;
  actual_burn_rate := float_of_Z 1;
  alert_status := 2 ^ 130
|}.
(* ================================================================== *)
(** ** Properties *)

Ltac run_step :=
  unfold bind, try_except, ret, raise, lift, gets, modify, logger,
    datetime_now; simpl.

(** *** The data log *)

Lemma add_log_entry_eq (r : ReactorDataModel) (s : Server) :
  add_log_entry r s =
  (Ok tt,
   set_data_manager
     {| reactor_data := reactor_data (data_manager s);
        data_buffer :=
          data_buffer (data_manager s)
          ++ [model_copy_timestamp r (wall_clock s)];
        log_file := log_file (data_manager s);
        data_log := data_log (data_manager s) |} s).
Proof. reflexivity. Qed.

(** The copy made by [model_copy(update={"timestamp": t})] carries [t],
    whatever timestamp the original had. *)
Lemma model_copy_timestamp_stamps (m : ReactorDataModel) (t : datetime) :
  timestamp (model_copy_timestamp m t) = Some t.
Proof. reflexivity. Qed.

(** C10.  [add_log_entry] appends one entry to the buffer and changes
    nothing else.  The entry is a copy of the reading whose timestamp is
    the clock at the call, whatever timestamp the reading carried, and
    whose other fields are the reading's.  The data log, the files on disk,
    the latest-state slot and the connection registry (and every other
    component of the state) are what they were. *)
Theorem add_log_entry_frame (r : ReactorDataModel) (s : Server) :
  let s' := snd (add_log_entry r s) in
  fst (add_log_entry r s) = Ok tt
  /\ (exists entry : ReactorDataModel,
        data_buffer (data_manager s') = data_buffer (data_manager s) ++ [entry]
        /\ timestamp entry = Some (wall_clock s)
        /\ temperature entry = temperature r
        /\ fuel_level entry = fuel_level r
        /\ coolant_level entry = coolant_level r
        /\ waste_level entry = waste_level r
        /\ status entry = status r
        /\ burn_rate entry = burn_rate r
        /\ actual_burn_rate entry = actual_burn_rate r
        /\ alert_status entry = alert_status r)
  /\ data_buffer (data_manager s')
     = data_buffer (data_manager s) ++ [model_copy_timestamp r (wall_clock s)]
  /\ data_log (data_manager s') = data_log (data_manager s)
  /\ files s' = files s
  /\ reactor_data (data_manager s') = reactor_data (data_manager s)
  /\ conn_manager s' = conn_manager s
  /\ log_file (data_manager s') = log_file (data_manager s)
  /\ wall_clock s' = wall_clock s
  /\ accepted s' = accepted s
  /\ broken s' = broken s
  /\ ws_sent s' = ws_sent s
  /\ sio_emitted s' = sio_emitted s
  /\ logs s' = logs s.
Proof.
  rewrite add_log_entry_eq; simpl.
  split; [reflexivity|]. split.
  - exists (model_copy_timestamp r (wall_clock s)).
    repeat split; reflexivity.
  - repeat split; reflexivity.
Qed.

(** *** The packet for the ESP8266 *)

(** The format names seven items for eleven bytes. *)
Lemma packet_format_codes :
  Struct.parse_format packet_format
  = Some [Struct.fmt_B; Struct.fmt_H; Struct.fmt_H; Struct.fmt_H;
          Struct.fmt_H; Struct.fmt_B; Struct.fmt_B].
Proof. reflexivity. Qed.

Lemma packet_format_size :
  option_map Struct.calcsize (Struct.parse_format packet_format) = Some 11%nat.
Proof. reflexivity. Qed.

(** Eight values never fit it. *)
Lemma pack_eight_values (a b c d e f g h : Z) :
  Struct.pack packet_format [a; b; c; d; e; f; g; h] = Raise struct_error.
Proof. reflexivity. Qed.

Lemma send_to_esp8266_eq (data : ReactorDataModel) (s : Server) :
  exists e : exn,
    send_to_esp8266 data s = (Ok tt, set_logs (logs s ++ [error_send_esp e]) s).
Proof.
  unfold send_to_esp8266; run_step.
  destruct (scaled (temperature data)) as [t|e]; [|exists e; reflexivity].
  destruct (scaled (fuel_level data)) as [f|e]; [|exists e; reflexivity].
  destruct (scaled (coolant_level data)) as [c|e]; [|exists e; reflexivity].
  destruct (scaled (waste_level data)) as [w|e]; [|exists e; reflexivity].
  exists struct_error; reflexivity.
Qed.

(** C1.  What the code does on every reading it forwards: the call of
    [struct.pack] gets eight values for a format of seven items, so it
    raises; the handler logs the error, and no [reactor_data] event, hence
    no frame, reaches the consumer transport.  (The specification asks for
    a 12-byte frame delivered as a hexadecimal string.) *)
Theorem send_to_esp8266_emits_nothing (data : ReactorDataModel) (s : Server) :
  let s' := snd (send_to_esp8266 data s) in
  fst (send_to_esp8266 data s) = Ok tt
  /\ sio_emitted s' = sio_emitted s
  /\ (exists e : exn, logs s' = logs s ++ [error_send_esp e])
  /\ snd (send_to_esp8266 reading_e2e fresh)
     = set_logs (logs fresh ++ [error_send_esp struct_error]) fresh.
Proof.
  destruct (send_to_esp8266_eq data s) as [e He].
  rewrite He; simpl.
  repeat split; try reflexivity.
  exists e; reflexivity.
Qed.

(** With the eighth item named in the format, the same values give the
    twelve bytes of the documented layout. *)
Example pack_with_checksum_item :
  Struct.pack "!BHHHHBBB" [170; 3502; 800; 955; 100; 1; 2; 85]
  = Ok [xaa; x0d; xae; x03; x20; x03; xbb; x00; x64; x01; x02; x55].
Proof. reflexivity. Qed.

Example hex_is_lowercase :
  Struct.hex [xaa; x0d; xae; x03; x20; x55] = "aa0dae032055".
Proof. reflexivity. Qed.

Example scaled_e2e :
  map scaled [temperature reading_e2e; fuel_level reading_e2e;
              coolant_level reading_e2e; waste_level reading_e2e]
  = [Ok 3502; Ok 800; Ok 955; Ok 100].
Proof. vm_compute. reflexivity. Qed.

(** *** The producer link *)

Lemma dict_get_set_same {V} (k : string) (v : V) (d : dict V) :
  dict_get k (dict_set k v d) = Some v.
Proof.
  induction d as [|[k' v'] d IH]; simpl.
  - rewrite String.eqb_refl; reflexivity.
  - destruct (String.eqb k k') eqn:E; simpl; rewrite E; auto.
Qed.

Section ProducerLink.

Variable settings : Settings.
Variable validate_json : string -> option ReactorDataModel.

(** One well-formed text frame: the latest-state slot takes the reading
    as parsed, the buffer takes a stamped copy, and the forwarding, when
    the ESP8266 is present, only adds a line to the log. *)
Lemma on_text_valid (computer_id data : string) (r : ReactorDataModel)
    (s : Server) :
  validate_json data = Some r ->
  exists tail : list log_record,
    on_text validate_json computer_id data s =
    (Ok tt,
     set_logs (logs s ++ debug_received computer_id data :: tail)
       (set_data_manager
          {| reactor_data := r;
             data_buffer :=
               data_buffer (data_manager s)
               ++ [model_copy_timestamp r (wall_clock s)];
             log_file := log_file (data_manager s);
             data_log := data_log (data_manager s) |} s)).
Proof.
  intros Hv.
  unfold on_text, ReactorDataModel_model_validate_json.
  rewrite Hv. run_step.
  destruct (esp8266_connected (conn_manager s)).
  - match goal with
    | |- context [send_to_esp8266 r ?st] =>
        destruct (send_to_esp8266_eq r st) as [e He]; rewrite He
    end.
    exists [error_send_esp e]. simpl.
    unfold set_logs, set_data_manager; simpl.
    rewrite <- app_assoc. reflexivity.
  - exists []. reflexivity.
Qed.

(** C5, as the code has it.  A text frame that parses to a reading [r],
    handed over at time [t]: the ingest pushes to the buffer a new instance
    whose timestamp is [t], the time on the clock, whatever timestamp [r]
    brought along, and whose other fields are those of [r]; the instance it
    records as latest state is [r] itself, with the timestamp of the
    payload. *)
Theorem ingest_stamps_buffer_entry (computer_id data : string)
    (r : ReactorDataModel) (t : datetime) (s : Server) :
  validate_json data = Some r ->
  let run := (modify (set_wall_clock t) ;;;
              on_text validate_json computer_id data) s in
  fst run = Ok tt
  /\ (exists entry : ReactorDataModel,
         data_buffer (data_manager (snd run))
         = data_buffer (data_manager s) ++ [entry]
         /\ timestamp entry = Some t
         /\ entry = model_copy_timestamp r t
         /\ (temperature entry, fuel_level entry, coolant_level entry,
             waste_level entry, status entry, burn_rate entry,
             actual_burn_rate entry, alert_status entry)
            = (temperature r, fuel_level r, coolant_level r, waste_level r,
               status r, burn_rate r, actual_burn_rate r, alert_status r))
  /\ reactor_data (data_manager (snd run)) = r
  /\ timestamp (reactor_data (data_manager (snd run))) = timestamp r.
Proof.
  intros Hv run.
  assert (E : run = on_text validate_json computer_id data
                      (set_wall_clock t s)) by reflexivity.
  destruct (on_text_valid computer_id data r (set_wall_clock t s) Hv)
    as [tail Ht].
  rewrite E, Ht. simpl. split; [reflexivity|]. split.
  - exists (model_copy_timestamp r t). repeat split; reflexivity.
  - split; reflexivity.
Qed.

(** C2.  What the code does with a text frame that does not validate:
    [model_validate_json] raises pydantic's [ValidationError], which is not
    a [json.JSONDecodeError] and not a [WebSocketDisconnect], so neither
    [except] clause applies and the exception leaves [websocket_endpoint].
    The handler ends there, whatever frames were still to come; no warning
    is logged; the data manager is untouched; the registry keeps the entry
    of the dead handler.  (The specification asks for a warning and an open
    connection.) *)
Theorem malformed_payload_ends_handler (websocket : WebSocket)
    (computer_id data : string) (t : datetime) (rest : list ws_event)
    (s : Server) :
  validate_json data = None ->
  let run :=
    websocket_endpoint validate_json websocket computer_id
      (text_frame t data :: rest) s in
  fst run = Raise ValidationError
  /\ run = websocket_endpoint validate_json websocket computer_id
             [text_frame t data] s
  /\ data_manager (snd run) = data_manager s
  /\ logs (snd run)
     = logs s ++ [info_cc_connected computer_id;
                  debug_received computer_id data]
  /\ dict_get computer_id
       (computercraft_connections (conn_manager (snd run)))
     = Some websocket.
Proof.
  intros Hv run. subst run.
  unfold websocket_endpoint, receive_loop, on_text,
    ReactorDataModel_model_validate_json.
  rewrite Hv. run_step.
  repeat split.
  - rewrite <- app_assoc. reflexivity.
  - apply dict_get_set_same.
Qed.

(** C6.  A link attempt whose secret differs from the configured one ends
    with [HTTPException(403)] raised by the dependency; the endpoint body
    does not run, so the socket is not accepted and the state, the
    registry included, is exactly what it was. *)
Theorem wrong_secret_rejected (websocket : WebSocket)
    (computer_id secret : string) (inbox : list ws_event) (s : Server) :
  secret <> SECRET_KEY settings ->
  websocket_route settings validate_json websocket computer_id secret inbox s
  = (Raise (HTTPException 403), s).
Proof.
  intros Hneq.
  unfold websocket_route, get_secret_key, bind.
  apply String.eqb_neq in Hneq. rewrite Hneq. reflexivity.
Qed.

(** With the right secret the endpoint runs. *)
Lemma right_secret_accepted (websocket : WebSocket)
    (computer_id : string) (inbox : list ws_event) (s : Server) :
  websocket_route settings validate_json websocket computer_id
    (SECRET_KEY settings) inbox s
  = websocket_endpoint validate_json websocket computer_id inbox s.
Proof.
  unfold websocket_route, get_secret_key, bind.
  rewrite String.eqb_refl. reflexivity.
Qed.

End ProducerLink.

(** *** Flushing the buffer *)

Lemma flush_empty_buffer (s : Server) :
  data_buffer (data_manager s) = [] ->
  flush_buffer_to_log s = (Ok tt, s).
Proof.
  intros Hb. unfold flush_buffer_to_log, bind, gets. rewrite Hb. reflexivity.
Qed.

(** The three ways a flush of a non-empty buffer can go. *)
Lemma flush_nonempty_buffer (s : Server) :
  data_buffer (data_manager s) <> [] ->
  flush_buffer_to_log s =
  match DataFrame_of_dumps (data_buffer (data_manager s)) with
  | Raise e => (Raise e, s)
  | Ok new_data =>
      match concat (data_log (data_manager s)) new_data with
      | Raise e => (Raise e, s)
      | Ok merged => (Ok tt, flushed merged (height new_data) s)
      end
  end.
Proof.
  intros Hb. unfold flush_buffer_to_log, bind, gets.
  destruct (data_buffer (data_manager s)) as [|b bs] eqn:Eb; [congruence|].
  unfold lift.
  destruct (DataFrame_of_dumps (b :: bs)) as [nd|e]; [|reflexivity].
  simpl. rewrite Eb.
  destruct (concat (data_log (data_manager s)) nd) as [m|e]; reflexivity.
Qed.

Lemma flush_result_cases (s : Server) :
  (exists e, flush_buffer_to_log s = (Raise e, s))
  \/ (fst (flush_buffer_to_log s) = Ok tt
      /\ data_buffer (data_manager (snd (flush_buffer_to_log s))) = []).
Proof.
  destruct (data_buffer (data_manager s)) as [|b bs] eqn:Eb.
  - right. rewrite flush_empty_buffer by assumption. auto.
  - rewrite flush_nonempty_buffer by congruence.
    destruct (DataFrame_of_dumps _) as [nd|e]; [|left; eauto].
    destruct (concat _ nd) as [m|e]; [|left; eauto].
    right. split; reflexivity.
Qed.

(** C9.  A flush that directly follows a flush changes nothing: the state
    after the second call, the data log in particular, is the state after
    the first.  And a flush on an empty buffer returns at once, leaving the
    whole state as it was. *)
Theorem flush_twice_is_flush_once (s : Server) :
  let s1 := snd (flush_buffer_to_log s) in
  let s2 := snd (flush_buffer_to_log s1) in
  s2 = s1
  /\ data_log (data_manager s2) = data_log (data_manager s1)
  /\ (forall s0 : Server,
        data_buffer (data_manager s0) = [] ->
        flush_buffer_to_log s0 = (Ok tt, s0)).
Proof.
  assert (H : snd (flush_buffer_to_log (snd (flush_buffer_to_log s)))
              = snd (flush_buffer_to_log s)).
  { destruct (flush_result_cases s) as [[e He]|[_ Hb]].
    - rewrite He; simpl. rewrite He; reflexivity.
    - rewrite (flush_empty_buffer _ Hb). reflexivity. }
  simpl. repeat split.
  - exact H.
  - rewrite H. reflexivity.
  - exact flush_empty_buffer.
Qed.

Lemma schema_eqb_length (a b : Schema) :
  schema_eqb a b = true -> List.length a = List.length b.
Proof.
  revert b. induction a as [|x a IH]; intros [|y b]; simpl; try discriminate.
  - reflexivity.
  - intros H. apply andb_true_iff in H. destruct H as [_ H].
    f_equal. apply IH, H.
Qed.

(** When the data log has the columns and types of the frame that
    [pl.DataFrame] builds from the buffer, the flush appends the rows of
    that frame to the log and empties the buffer. *)
Lemma flush_appends_when_types_agree (s : Server) (new_data : DataFrame) :
  data_buffer (data_manager s) <> [] ->
  DataFrame_of_dumps (data_buffer (data_manager s)) = Ok new_data ->
  schema_eqb (schema (data_log (data_manager s))) (schema new_data) = true ->
  fst (flush_buffer_to_log s) = Ok tt
  /\ rows (data_log (data_manager (snd (flush_buffer_to_log s))))
     = rows (data_log (data_manager s)) ++ rows new_data
  /\ data_buffer (data_manager (snd (flush_buffer_to_log s))) = [].
Proof.
  intros Hb Hd Hs.
  rewrite (flush_nonempty_buffer s Hb), Hd.
  unfold concat. rewrite (schema_eqb_length _ _ Hs), Nat.eqb_refl, Hs. simpl.
  repeat split.
Qed.

(** The frame built from a non-empty list of readings has the nine columns
    of a reading, with the types chosen from its first rows. *)
Lemma DataFrame_of_dumps_schema (items : list ReactorDataModel)
    (df : DataFrame) :
  items <> [] ->
  DataFrame_of_dumps items = Ok df ->
  schema df = dumps_schema (firstn infer_schema_length items).
Proof.
  intros Hne Hd. unfold DataFrame_of_dumps in Hd.
  destruct items as [|b bs]; [congruence|].
  destruct (negb _); [discriminate|].
  destruct (store_rows _ _); [|discriminate].
  injection Hd as <-. reflexivity.
Qed.

(** No choice of column types gives the declared schema: a Python float
    always makes a [Float64] column. *)
Lemma dumps_schema_not_declared (window : list ReactorDataModel) :
  schema_eqb log_schema (dumps_schema window) = false.
Proof.
  unfold dumps_schema, log_schema.
  destruct (timestamp_dtype window); reflexivity.
Qed.

(** On the schema that [_load_or_initialize_log] declares, a flush of a
    non-empty buffer always raises and leaves buffer and log as they were:
    the [temperature] column is declared [Float32], and a Python float
    makes a [Float64] column. *)
Lemma flush_on_declared_schema_raises (s : Server) :
  schema (data_log (data_manager s)) = log_schema ->
  data_buffer (data_manager s) <> [] ->
  exists e : exn, flush_buffer_to_log s = (Raise e, s).
Proof.
  intros Hs Hb.
  rewrite (flush_nonempty_buffer s Hb).
  destruct (DataFrame_of_dumps (data_buffer (data_manager s)))
    as [nd|e] eqn:Ed; [|eauto].
  apply (DataFrame_of_dumps_schema _ _ Hb) in Ed.
  unfold concat. rewrite Hs, Ed, dumps_schema_not_declared.
  destruct (negb _); eauto.
Qed.

(** C8.  What the code does when readings A then B are appended to a
    freshly started log and [flush_buffer_to_log] is called: [pl.concat]
    raises [SchemaError], because the frame built from the buffer has
    [Float64] and [Int64] columns where the declared schema has [Float32]
    and [UInt8]; the data log gets no row and both readings stay in the
    buffer.  (The specification asks for rows A, B at the end of the data
    log and an empty buffer.) *)
Theorem flush_on_fresh_log_raises :
  flush_buffer_to_log two_buffered = (Raise SchemaError, two_buffered)
  /\ data_buffer (data_manager two_buffered)
     = [model_copy_timestamp reading_e2e 1000;
        model_copy_timestamp reading_b 1000]
  /\ schema (data_log (data_manager two_buffered)) = log_schema
  /\ rows (data_log (data_manager two_buffered)) = [].
Proof.
  split; [reflexivity|]. split; [reflexivity|]. split; reflexivity.
Qed.

(** *** The command fan-out *)

Lemma nth_error_skipn {A} (l : list A) (n : nat) (x : A) :
  nth_error l n = Some x -> skipn n l = x :: skipn (S n) l.
Proof.
  revert n. induction l as [|a l IH]; intros [|n]; simpl; try discriminate.
  - intros [= ->]. reflexivity.
  - intros H. rewrite (IH n H). reflexivity.
Qed.

Lemma deliver_connections (cmd : string) (s : Server) (e : string * WebSocket) :
  connections (deliver cmd s e) = connections s.
Proof. unfold deliver. destruct (is_broken _ _); reflexivity. Qed.

Lemma deliver_is_broken (cmd : string) (s : Server) (e : string * WebSocket)
    (ws : WebSocket) :
  is_broken ws (deliver cmd s e) = is_broken ws s.
Proof. unfold deliver. destruct (is_broken (snd e) s); reflexivity. Qed.

Lemma fold_deliver_connections (cmd : string) (l : dict WebSocket)
    (s : Server) :
  connections (fold_left (deliver cmd) l s) = connections s.
Proof.
  revert s. induction l as [|e l IH]; intros s; simpl; [reflexivity|].
  rewrite IH. apply deliver_connections.
Qed.

Lemma fold_deliver_is_broken (cmd : string) (l : dict WebSocket) (s : Server)
    (ws : WebSocket) :
  is_broken ws (fold_left (deliver cmd) l s) = is_broken ws s.
Proof.
  revert s. induction l as [|e l IH]; intros s; simpl; [reflexivity|].
  rewrite IH. apply deliver_is_broken.
Qed.

Lemma delivered_ext (cmd : string) (s s' : Server) (l : dict WebSocket) :
  (forall ws, is_broken ws s' = is_broken ws s) ->
  delivered cmd s' l = delivered cmd s l.
Proof.
  intros H. unfold delivered. f_equal.
  apply filter_ext. intros e. rewrite H. reflexivity.
Qed.

Lemma send_errors_ext (s s' : Server) (l : dict WebSocket) :
  (forall ws, is_broken ws s' = is_broken ws s) ->
  send_errors s' l = send_errors s l.
Proof.
  intros H. unfold send_errors. f_equal.
  apply filter_ext. intros e. rewrite H. reflexivity.
Qed.

Lemma fold_deliver_ws_sent (cmd : string) (l : dict WebSocket) (s : Server) :
  ws_sent (fold_left (deliver cmd) l s) = ws_sent s ++ delivered cmd s l.
Proof.
  revert s. induction l as [|e l IH]; intros s; simpl.
  - unfold delivered. simpl. rewrite app_nil_r. reflexivity.
  - rewrite IH.
    rewrite (delivered_ext cmd s (deliver cmd s e) l)
      by (intros ws; apply deliver_is_broken).
    unfold delivered at 2. simpl. unfold deliver.
    destruct (is_broken (snd e) s); simpl.
    + reflexivity.
    + rewrite <- app_assoc. reflexivity.
Qed.

Lemma fold_deliver_logs (cmd : string) (l : dict WebSocket) (s : Server) :
  logs (fold_left (deliver cmd) l s) = logs s ++ send_errors s l.
Proof.
  revert s. induction l as [|e l IH]; intros s; simpl.
  - unfold send_errors. simpl. rewrite app_nil_r. reflexivity.
  - rewrite IH.
    rewrite (send_errors_ext s (deliver cmd s e) l)
      by (intros ws; apply deliver_is_broken).
    unfold send_errors at 2. simpl. unfold deliver.
    destruct (is_broken (snd e) s); simpl.
    + rewrite <- app_assoc. reflexivity.
    + reflexivity.
Qed.

(** One guarded send never raises. *)
Lemma send_guarded_eq (computer_id : string) (websocket : WebSocket)
    (cmd : string) (o : option registry_op) (s : Server) :
  send_guarded computer_id websocket cmd o s
  = (Ok tt, deliver cmd (apply_op o s) (computer_id, websocket)).
Proof.
  unfold send_guarded, send_text, try_except, bind, apply_op, deliver.
  assert (Ho : exists s', other_task o s = (Ok tt, s')).
  { destruct o as [[| |]|]; eexists; reflexivity. }
  destruct Ho as [s' Ho]. rewrite Ho. simpl.
  unfold gets. destruct (is_broken websocket s'); reflexivity.
Qed.

Lemma fan_out_succ (remaining size0 : nat) (cmd : string) (sched : schedule) :
  fan_out (S remaining) size0 cmd sched
  = (conns <- gets (fun s => computercraft_connections (conn_manager s)) ;;
     if negb (Nat.eqb (List.length conns) size0) then raise RuntimeError
     else
       match nth_error conns (size0 - S remaining) with
       | None => ret tt
       | Some (computer_id, websocket) =>
           send_guarded computer_id websocket cmd (hd None sched) ;;;
           fan_out remaining size0 cmd (tl sched)
       end).
Proof. reflexivity. Qed.

Lemma fan_out_size_changed (remaining size0 : nat) (cmd : string)
    (sched : schedule) (s : Server) :
  List.length (connections s) <> size0 ->
  fan_out remaining size0 cmd sched s = (Raise RuntimeError, s).
Proof.
  intros H. apply Nat.eqb_neq in H.
  destruct remaining; simpl; unfold bind, gets;
    fold (connections s); rewrite H; reflexivity.
Qed.

Lemma fan_out_step (remaining : nat) (cmd : string) (sched : schedule)
    (s : Server) (computer_id : string) (websocket : WebSocket) :
  nth_error (connections s) (List.length (connections s) - S remaining)
  = Some (computer_id, websocket) ->
  fan_out (S remaining) (List.length (connections s)) cmd sched s
  = fan_out remaining (List.length (connections s)) cmd (tl sched)
      (deliver cmd (apply_op (hd None sched) s) (computer_id, websocket)).
Proof.
  intros Hn. rewrite fan_out_succ.
  unfold bind at 1. unfold gets at 1. cbv beta iota.
  fold (connections s). rewrite Nat.eqb_refl. cbn [negb]. cbv iota.
  rewrite Hn. unfold bind at 1. rewrite send_guarded_eq. reflexivity.
Qed.

Lemma fan_out_step_at (remaining size0 : nat) (cmd : string)
    (sched : schedule) (s : Server) (computer_id : string)
    (websocket : WebSocket) :
  List.length (connections s) = size0 ->
  nth_error (connections s) (size0 - S remaining)
  = Some (computer_id, websocket) ->
  fan_out (S remaining) size0 cmd sched s
  = fan_out remaining size0 cmd (tl sched)
      (deliver cmd (apply_op (hd None sched) s) (computer_id, websocket)).
Proof. intros <-. apply fan_out_step. Qed.

(** With no interference the loop visits every entry from its position on. *)
Lemma fan_out_quiet (cmd : string) (remaining : nat) :
  forall (sched : schedule) (s : Server),
    quiet sched = true ->
    (remaining <= List.length (connections s))%nat ->
    fan_out remaining (List.length (connections s)) cmd sched s
    = (Ok tt,
       fold_left (deliver cmd)
         (skipn (List.length (connections s) - remaining) (connections s)) s).
Proof.
  induction remaining as [|r IH]; intros sched s Hq Hle.
  - rewrite Nat.sub_0_r, skipn_all. simpl.
    unfold bind, gets. fold (connections s). rewrite Nat.eqb_refl. reflexivity.
  - destruct (nth_error (connections s) (List.length (connections s) - S r))
      as [[computer_id websocket]|] eqn:Hn.
    2:{ apply nth_error_None in Hn. lia. }
    rewrite (fan_out_step r cmd sched s computer_id websocket Hn).
    assert (Hhd : hd None sched = None).
    { destruct sched as [|[o|] sched]; simpl in *; congruence. }
    assert (Htl : quiet (tl sched) = true).
    { destruct sched as [|[o|] sched]; simpl in *; congruence. }
    rewrite Hhd. unfold apply_op. simpl other_task. simpl snd.
    pose proof (deliver_connections cmd s (computer_id, websocket)) as Hc.
    rewrite <- Hc at 1 2. rewrite IH; [|assumption|rewrite Hc; lia].
    rewrite Hc. rewrite (nth_error_skipn _ _ _ Hn).
    replace (S (List.length (connections s) - S r))
      with (List.length (connections s) - r)%nat by lia.
    reflexivity.
Qed.

Lemma apply_op_conn_manager (o : option registry_op) (s s' : Server) :
  conn_manager s' = conn_manager s ->
  conn_manager (apply_op o s') = conn_manager (apply_op o s).
Proof.
  intros H. unfold apply_op.
  destruct o as [[computer_id websocket|computer_id|status]|]; simpl;
    rewrite ?H; try reflexivity.
  destruct (dict_mem computer_id (computercraft_connections (conn_manager s)));
    simpl; rewrite ?H; reflexivity.
Qed.

Lemma apply_op_outputs (o : option registry_op) (s : Server) :
  ws_sent (apply_op o s) = ws_sent s
  /\ logs (apply_op o s) = logs s
  /\ broken (apply_op o s) = broken s
  /\ data_manager (apply_op o s) = data_manager s.
Proof.
  unfold apply_op.
  destruct o as [[computer_id websocket|computer_id|status]|]; simpl; auto.
  destruct (dict_mem computer_id (computercraft_connections (conn_manager s)));
    simpl; auto.
Qed.

Lemma apply_op_is_broken (o : option registry_op) (s : Server)
    (ws : WebSocket) :
  is_broken ws (apply_op o s) = is_broken ws s.
Proof.
  unfold is_broken. destruct (apply_op_outputs o s) as (_ & _ & -> & _).
  reflexivity.
Qed.

Lemma deliver_conn_manager (cmd : string) (s : Server)
    (e : string * WebSocket) :
  conn_manager (deliver cmd s e) = conn_manager s.
Proof. unfold deliver. destruct (is_broken _ _); reflexivity. Qed.

Lemma firstn_succ_skipn {A} (l : list A) (k : nat) :
  firstn (S k) l = firstn k l ++ firstn 1 (skipn k l).
Proof.
  revert l. induction k as [|k IH]; intros [|a l]; try reflexivity.
  change (a :: firstn (S k) l = a :: (firstn k l ++ firstn 1 (skipn k l))).
  rewrite IH. reflexivity.
Qed.

(** A step of another task that changes the size of the registry while the
    send number [k] (from the current position) is suspended: the loop runs
    up to that send and then stops with [RuntimeError]. *)
Lemma fan_out_interrupted (cmd : string) (o : registry_op) (rest : schedule)
    (k : nat) :
  forall (remaining : nat) (s : Server),
    (k < remaining)%nat ->
    (remaining <= List.length (connections s))%nat ->
    List.length (connections (apply_op (Some o) s))
    <> List.length (connections s) ->
    let pos := (List.length (connections s) - remaining)%nat in
    fan_out remaining (List.length (connections s)) cmd
      (repeat None k ++ Some o :: rest) s
    = (Raise RuntimeError,
       fold_left (deliver cmd) (firstn 1 (skipn (pos + k) (connections s)))
         (apply_op (Some o)
            (fold_left (deliver cmd)
               (firstn k (skipn pos (connections s))) s))).
Proof.
  induction k as [|k IH]; intros remaining s Hk Hle Hsz pos; subst pos;
    destruct remaining as [|r]; try lia;
    destruct (nth_error (connections s) (List.length (connections s) - S r))
      as [[computer_id websocket]|] eqn:Hn;
    try (apply nth_error_None in Hn; lia);
    rewrite (fan_out_step r cmd _ s computer_id websocket Hn).
  - simpl hd. simpl tl. rewrite Nat.add_0_r.
    rewrite (nth_error_skipn _ _ _ Hn). simpl.
    apply fan_out_size_changed.
    rewrite deliver_connections. exact Hsz.
  - simpl hd. simpl tl. unfold apply_op at 1. simpl other_task. simpl snd.
    pose proof (deliver_connections cmd s (computer_id, websocket)) as Hc.
    rewrite <- Hc at 1.
    rewrite IH; [|lia|rewrite Hc; lia|].
    + rewrite Hc. rewrite (nth_error_skipn _ _ _ Hn).
      replace (S (List.length (connections s) - S r))
        with (List.length (connections s) - r)%nat by lia.
      replace (List.length (connections s) - r + k)%nat
        with (List.length (connections s) - S r + S k)%nat by lia.
      reflexivity.
    + rewrite Hc. unfold connections in *.
      rewrite (apply_op_conn_manager (Some o) s
                 (deliver cmd s (computer_id, websocket))
                 (deliver_conn_manager _ _ _)).
      exact Hsz.
Qed.

(** The loop over a copy of the entries visits every entry of the copy,
    whatever other tasks do to the registry. *)
Lemma fan_out_snapshot_quiet (cmd : string) (snapshot : dict WebSocket) :
  forall (sched : schedule) (s : Server),
    quiet sched = true ->
    fan_out_snapshot snapshot cmd sched s
    = (Ok tt, fold_left (deliver cmd) snapshot s).
Proof.
  induction snapshot as [|[computer_id websocket] l IH]; intros sched s Hq.
  - reflexivity.
  - simpl fan_out_snapshot. unfold bind at 1. rewrite send_guarded_eq.
    assert (Hhd : hd None sched = None).
    { destruct sched as [|[o|] sched]; simpl in *; congruence. }
    assert (Htl : quiet (tl sched) = true).
    { destruct sched as [|[o|] sched]; simpl in *; congruence. }
    rewrite Hhd, IH by assumption. reflexivity.
Qed.

Lemma delivered_app (cmd : string) (s : Server) (l1 l2 : dict WebSocket) :
  delivered cmd s (l1 ++ l2) = delivered cmd s l1 ++ delivered cmd s l2.
Proof. unfold delivered. rewrite filter_app, map_app. reflexivity. Qed.

Lemma send_errors_app (s : Server) (l1 l2 : dict WebSocket) :
  send_errors s (l1 ++ l2) = send_errors s l1 ++ send_errors s l2.
Proof. unfold send_errors. rewrite filter_app, map_app. reflexivity. Qed.

Lemma in_delivered (cmd : string) (s : Server) (l : dict WebSocket)
    (computer_id : string) (websocket : WebSocket) :
  In (computer_id, websocket) l ->
  is_broken websocket s = false ->
  In (websocket, cmd) (delivered cmd s l).
Proof.
  intros Hin Hb. unfold delivered.
  apply (in_map (fun e : string * WebSocket => (snd e, cmd))
           _ (computer_id, websocket)).
  apply filter_In. split; [assumption|]. simpl. rewrite Hb. reflexivity.
Qed.

Lemma in_send_errors (s : Server) (l : dict WebSocket)
    (computer_id : string) (websocket : WebSocket) :
  In (computer_id, websocket) l ->
  is_broken websocket s = true ->
  In (error_send_command computer_id ConnectionClosed) (send_errors s l).
Proof.
  intros Hin Hb. unfold send_errors.
  apply (in_map (fun e : string * WebSocket =>
                   error_send_command (fst e) ConnectionClosed)
           _ (computer_id, websocket)).
  apply filter_In. split; assumption.
Qed.

Section Dispatch.

Variable dump_json : ControlCommand -> string.

(** After validation the handler announces the command and starts the
    loop on the registry as it is. *)
Lemma control_command_valid (sid : string) (data : dict any)
    (c : ControlCommand) (sched : schedule) (s : Server) :
  ControlCommand_model_validate data = Ok c ->
  control_command dump_json sid data sched s
  = match fan_out (List.length (connections (announced c s)))
            (List.length (connections (announced c s)))
            (dump_json c) sched (announced c s) with
    | (Ok a, s') => (Ok a, s')
    | (Raise e, s') => logger (error_invalid_command sid data e) s'
    end.
Proof.
  intros Hv. unfold control_command, try_except, bind, lift.
  rewrite Hv. reflexivity.
Qed.

Lemma control_command_quiet (sid : string) (data : dict any)
    (c : ControlCommand) (sched : schedule) (s : Server) :
  ControlCommand_model_validate data = Ok c ->
  quiet sched = true ->
  control_command dump_json sid data sched s
  = (Ok tt,
     fold_left (deliver (dump_json c)) (connections s) (announced c s)).
Proof.
  intros Hv Hq. rewrite (control_command_valid sid data c sched s Hv).
  rewrite (fan_out_quiet (dump_json c) _ sched (announced c s) Hq (le_n _)).
  rewrite Nat.sub_diag. reflexivity.
Qed.

Lemma dispatchCommand_snapshot_quiet (sid : string) (data : dict any)
    (c : ControlCommand) (sched : schedule) (s : Server) :
  ControlCommand_model_validate data = Ok c ->
  quiet sched = true ->
  dispatchCommand_snapshot dump_json sid data sched s
  = (Ok tt,
     fold_left (deliver (dump_json c)) (connections s) (announced c s)).
Proof.
  intros Hv Hq.
  assert (E : dispatchCommand_snapshot dump_json sid data sched s
              = match fan_out_snapshot (connections (announced c s))
                        (dump_json c) sched (announced c s) with
                | (Ok a, s') => (Ok a, s')
                | (Raise e, s') =>
                    logger (error_invalid_command sid data e) s'
                end).
  { unfold dispatchCommand_snapshot, try_except, bind, lift.
    rewrite Hv. reflexivity. }
  rewrite E, (fan_out_snapshot_quiet (dump_json c) _ sched _ Hq).
  reflexivity.
Qed.

Lemma control_command_interrupted (sid : string) (data : dict any)
    (c : ControlCommand) (k : nat) (o : registry_op) (rest : schedule)
    (s : Server) :
  ControlCommand_model_validate data = Ok c ->
  (k < List.length (connections s))%nat ->
  List.length (connections (apply_op (Some o) s))
  <> List.length (connections s) ->
  let stopped :=
    fold_left (deliver (dump_json c)) (firstn 1 (skipn k (connections s)))
      (apply_op (Some o)
         (fold_left (deliver (dump_json c)) (firstn k (connections s))
            (announced c s))) in
  control_command dump_json sid data (repeat None k ++ Some o :: rest) s
  = (Ok tt,
     set_logs (logs stopped ++ [error_invalid_command sid data RuntimeError])
       stopped).
Proof.
  intros Hv Hk Hsz stopped. subst stopped.
  rewrite (control_command_valid sid data c _ s Hv).
  rewrite (fan_out_interrupted (dump_json c) o rest k _ (announced c s));
    [|exact Hk|apply le_n|].
  - rewrite Nat.sub_diag. reflexivity.
  - unfold connections in *.
    rewrite (apply_op_conn_manager (Some o) s (announced c s) eq_refl).
    exact Hsz.
Qed.

End Dispatch.

(** Failing transports do not change the walk: step by step, the loop with
    failing transports and the loop with sound ones see the same registry,
    stop or go on together, and differ only in the sends that failed. *)
Lemma deliver_shadows (B : WebSocket -> bool) (w0 : list (WebSocket * string))
    (cmd : string) (o : option registry_op) (e : string * WebSocket)
    (s s' : Server) :
  shadows B w0 s s' ->
  shadows B w0 (deliver cmd (apply_op o s) e) (deliver cmd (apply_op o s') e).
Proof.
  intros (Hc & Hb & Hb' & attempted & Hw' & Hw).
  destruct (apply_op_outputs o s) as (Hws & _).
  destruct (apply_op_outputs o s') as (Hws' & _).
  split; [|split; [|split]].
  - rewrite !deliver_conn_manager. apply apply_op_conn_manager, Hc.
  - intros ws. rewrite deliver_is_broken, apply_op_is_broken. apply Hb.
  - intros ws. rewrite deliver_is_broken, apply_op_is_broken. apply Hb'.
  - exists (attempted ++ [(snd e, cmd)]).
    unfold deliver. rewrite !apply_op_is_broken, Hb, Hb'.
    rewrite filter_app. simpl filter.
    destruct (B (snd e)); simpl.
    + rewrite Hws', Hws, Hw', Hw, app_nil_r, app_assoc. auto.
    + rewrite Hws', Hws, Hw', Hw, !app_assoc. auto.
Qed.

Lemma fan_out_shadows (B : WebSocket -> bool) (w0 : list (WebSocket * string))
    (cmd : string) (remaining : nat) :
  forall (size0 : nat) (sched : schedule) (s s' : Server),
    shadows B w0 s s' ->
    fst (fan_out remaining size0 cmd sched s)
    = fst (fan_out remaining size0 cmd sched s')
    /\ shadows B w0 (snd (fan_out remaining size0 cmd sched s))
         (snd (fan_out remaining size0 cmd sched s')).
Proof.
  induction remaining as [|r IH]; intros size0 sched s s' HR.
  - assert (Hc : connections s' = connections s)
      by (unfold connections; destruct HR as (-> & _); reflexivity).
    simpl. unfold bind, gets. fold (connections s) (connections s').
    rewrite Hc. destruct (negb _); simpl; auto.
  - assert (Hc : connections s' = connections s)
      by (unfold connections; destruct HR as (-> & _); reflexivity).
    destruct (Nat.eq_dec (List.length (connections s)) size0) as [Hlen|Hne].
    + destruct (nth_error (connections s) (size0 - S r))
        as [[computer_id websocket]|] eqn:Hn.
      * rewrite (fan_out_step_at r size0 cmd sched s computer_id websocket
                   Hlen Hn).
        rewrite <- Hc in Hlen, Hn.
        rewrite (fan_out_step_at r size0 cmd sched s' computer_id websocket
                   Hlen Hn).
        apply IH. apply deliver_shadows, HR.
      * rewrite !fan_out_succ. unfold bind, gets.
        fold (connections s) (connections s').
        rewrite Hc, Hlen, Nat.eqb_refl, Hn. simpl. auto.
    + rewrite !fan_out_size_changed by (rewrite ?Hc; assumption).
      simpl. auto.
Qed.

Section FanOut.

Variable dump_json : ControlCommand -> string.


Lemma control_command_shadows (sid : string) (data : dict any)
    (c : ControlCommand) (sched : schedule) (s : Server) :
  ControlCommand_model_validate data = Ok c ->
  fst (control_command dump_json sid data sched s) = Ok tt
  /\ shadows (fun ws => is_broken ws s) (ws_sent s)
       (snd (control_command dump_json sid data sched s))
       (snd (control_command dump_json sid data sched (mend s))).
Proof.
  intros Hv.
  rewrite (control_command_valid dump_json sid data c sched s Hv),
    (control_command_valid dump_json sid data c sched (mend s) Hv).
  assert (H0 : shadows (fun ws => is_broken ws s) (ws_sent s)
                 (announced c s) (announced c (mend s))).
  { split; [reflexivity|]. split; [reflexivity|]. split; [reflexivity|].
    exists []. simpl. rewrite app_nil_r. auto. }
  change (connections (announced c (mend s)))
    with (connections (announced c s)).
  destruct (fan_out_shadows _ _ (dump_json c)
              (List.length (connections (announced c s)))
              (List.length (connections (announced c s)))
              sched _ _ H0) as [Hfst Hsh].
  destruct (fan_out _ _ _ _ (announced c s)) as [[[]|e] s1];
    destruct (fan_out _ _ _ _ (announced c (mend s))) as [[[]|e'] s1'];
    simpl in Hfst; try discriminate; simpl in Hsh |- *.
  - auto.
  - split; [reflexivity|].
    destruct Hsh as (Hc & Hb & Hb' & attempted & Hw' & Hw).
    repeat split; try assumption.
    exists attempted. auto.
Qed.


End FanOut.



(** *** Scaling a reading to a 16-bit field *)

Lemma digits2_pos_size (p : positive) : digits2_pos p = Pos.size p.
Proof. induction p; simpl; congruence. Qed.

Lemma Zdigits2_le (z k : Z) : 0 <= z < 2 ^ k -> 0 <= k -> Zdigits2 z <= k.
Proof.
  intros [Hz Hlt] Hk. destruct z as [|p|p]; simpl; try lia.
  rewrite digits2_pos_size.
  pose proof (Pos.size_le p) as Hs.
  assert (H2 : 2 ^ Zpos (Pos.size p) <= 2 * Zpos p).
  { change (2 * Zpos p) with (Zpos p~0).
    rewrite <- Pos2Z.inj_pow. apply Pos2Z.pos_le_pos, Hs. }
  destruct (Z_lt_le_dec k (Zpos (Pos.size p))) as [Hgt|]; [|assumption].
  assert (2 ^ (k + 1) <= 2 ^ Zpos (Pos.size p))
    by (apply Z.pow_le_mono_r; lia).
  rewrite Z.pow_add_r in * by lia. lia.
Qed.

Lemma digits2_pos_gt (p : positive) : Zpos p < 2 ^ Zpos (digits2_pos p).
Proof.
  rewrite digits2_pos_size, <- Pos2Z.inj_pow.
  apply Pos2Z.pos_lt_pos, Pos.size_gt.
Qed.

Lemma shr_1_bounds (mrs : shr_record) (M : Z) :
  0 <= shr_m mrs <= M -> 0 <= shr_m (shr_1 mrs) <= M.
Proof.
  destruct mrs as [m r s]. simpl.
  destruct m as [|[p|p|]|[p|p|]]; simpl; lia.
Qed.

Lemma iter_pos_invariant {A} (P : A -> Prop) (f : A -> A) :
  (forall x, P x -> P (f x)) ->
  forall (n : positive) (x : A), P x -> P (iter_pos f n x).
Proof.
  intros Hf. induction n as [n IH|n IH|]; intros x Hx; simpl; auto.
Qed.

Lemma shr_fexp_bounds (m e : Z) (l : location) :
  0 <= m ->
  let out := shr_fexp prec emax m e l in
  0 <= shr_m (fst out) <= m
  /\ snd out = Z.max e (fexp prec emax (Zdigits2 m + e)).
Proof.
  intros Hm. unfold shr_fexp, shr.
  assert (H0 : 0 <= shr_m (shr_record_of_loc m l) <= m)
    by (destruct l as [|[| |]]; simpl; lia).
  destruct (fexp prec emax (Zdigits2 m + e) - e) as [|p|p] eqn:Hn; simpl.
  - split; [exact H0|lia].
  - split; [|lia].
    apply (iter_pos_invariant (fun mrs => 0 <= shr_m mrs <= m)); [|exact H0].
    intros x. apply shr_1_bounds.
  - split; [exact H0|lia].
Qed.

Lemma round_nearest_even_bounds (m : Z) (l : location) :
  0 <= m -> 0 <= round_nearest_even m l <= m + 1.
Proof.
  intros Hm. unfold round_nearest_even.
  destruct l as [|[| |]]; try destruct (Z.even m); lia.
Qed.

(** Rounding a small positive product gives a non-negative finite float. *)
Lemma binary_round_aux_small (mx : positive) (ex : Z) :
  Zpos mx < 2 ^ 106 -> ex <= -89 ->
  binary_round_aux prec emax false (Zpos mx) ex loc_Exact = S754_zero false
  \/ exists (m : positive) (e : Z),
       binary_round_aux prec emax false (Zpos mx) ex loc_Exact
       = S754_finite false m e.
Proof.
  intros Hmx Hex. unfold binary_round_aux.
  pose proof (shr_fexp_bounds (Zpos mx) ex loc_Exact ltac:(lia)) as H1.
  destruct (shr_fexp prec emax (Zpos mx) ex loc_Exact) as [mrs' e'].
  cbn [fst snd] in H1. destruct H1 as [Hm' He'].
  set (m1 := round_nearest_even (shr_m mrs') (loc_of_shr_record mrs')).
  pose proof (round_nearest_even_bounds (shr_m mrs')
                (loc_of_shr_record mrs') ltac:(lia)) as Hm1.
  fold m1 in Hm1.
  pose proof (shr_fexp_bounds m1 e' loc_Exact ltac:(lia)) as H2.
  destruct (shr_fexp prec emax m1 e' loc_Exact) as [mrs'' e''].
  cbn [fst snd] in H2. destruct H2 as [Hm'' He''].
  assert (Hd : Zdigits2 (Zpos mx) <= 106) by (apply Zdigits2_le; lia).
  assert (Hd1 : Zdigits2 m1 <= 107).
  { apply Zdigits2_le; [|lia]. split; [lia|].
    change (2 ^ 107) with (2 * 2 ^ 106). lia. }
  unfold fexp, emin, prec, emax in He', He''.
  change IntDef.Z.max with Z.max in He', He''.
  destruct (shr_m mrs'') as [|m|m] eqn:Hs.
  - left. reflexivity.
  - right. exists m, e''.
    replace (e'' <=? emax - prec) with true; [reflexivity|].
    symmetry. apply Z.leb_le. unfold emax, prec. lia.
  - lia.
Qed.

Lemma Z_of_byte_of_Z (z : Z) :
  0 <= z < 256 -> Struct.Z_of_byte (Struct.byte_of_Z z) = z.
Proof.
  intros Hz. unfold Struct.Z_of_byte, Struct.byte_of_Z.
  rewrite Z.mod_small by assumption.
  destruct (Byte.of_N (Z.to_N z)) as [b|] eqn:Hb.
  - apply Byte.to_of_N in Hb. rewrite Hb. lia.
  - apply Byte.of_N_None_iff in Hb. lia.
Qed.

(** An unsigned 16-bit field read back from its two bytes. *)
Lemma pack_H_round_trip (v : Z) :
  0 <= v <= 65535 ->
  exists hi lo : byte,
    Struct.pack1 Struct.fmt_H v = Ok [hi; lo]
    /\ Struct.unpack_be [hi; lo] = v.
Proof.
  intros Hv.
  exists (Struct.byte_of_Z (Z.shiftr v 8)), (Struct.byte_of_Z (Z.land v 255)).
  split.
  - unfold Struct.pack1.
    replace ((0 <=? v) && (v <=? 65535)) with true; [reflexivity|].
    symmetry. apply andb_true_iff. split; apply Z.leb_le; lia.
  - unfold Struct.unpack_be. cbn [fold_left].
    change 255 with (Z.ones 8).
    rewrite Z.land_ones, Z.shiftr_div_pow2 by lia.
    change (2 ^ 8) with 256.
    rewrite !Z_of_byte_of_Z.
    + pose proof (Z.div_mod v 256 ltac:(lia)). lia.
    + apply Z.mod_pos_bound. lia.
    + split; [apply Z.div_pos; lia|].
      apply Z.div_lt_upper_bound; lia.
Qed.

(** What [within_bounds] says of a float. *)
Lemma within_bounds_inv (x : float) :
  within_bounds x = true ->
  (exists s : bool, x = S754_zero s)
  \/ exists (m : positive) (e : Z),
       x = S754_finite false m e /\ Zpos m < 2 ^ 53 /\ e <= -40.
Proof.
  unfold within_bounds. intros H.
  apply andb_true_iff in H. destruct H as [H Hmax].
  apply andb_true_iff in H. destruct H as [Hvalid Hzero].
  destruct x as [s|s| |s m e].
  - left. exists s. reflexivity.
  - destruct s; discriminate.
  - discriminate.
  - right. destruct s; [discriminate|].
    exists m, e. split; [reflexivity|].
    simpl in Hvalid. unfold bounded in Hvalid.
    apply andb_true_iff in Hvalid. destruct Hvalid as [Hcan _].
    unfold canonical_mantissa in Hcan. apply Z.eqb_eq in Hcan.
    unfold fexp, emin, prec, emax in Hcan.
    change IntDef.Z.max with Z.max in Hcan.
    split.
    + pose proof (digits2_pos_gt m) as Hgt.
      assert (Hd : Zpos (digits2_pos m) <= 53) by lia.
      apply (Z.lt_le_trans _ _ _ Hgt).
      apply Z.pow_le_mono_r; lia.
    + change max_exact with (S754_finite false 7205649452630016 (-40))
        in Hmax.
      unfold fleb, SFleb, SFcompare in Hmax.
      destruct (e ?= -40) eqn:He; try discriminate.
      * apply Z.compare_eq in He. rewrite He. apply Z.le_refl.
      * apply Z.compare_lt_iff in He. apply Z.lt_le_incl, He.
Qed.

(** The product of a reading within bounds by ten is a finite float that is
    not negative: [int] does not raise on it. *)
Lemma int_of_scaled_product (x : float) :
  within_bounds x = true ->
  exists n : Z, int_of_float (fmul x (float_of_Z 10)) = Ok n /\ 0 <= n.
Proof.
  intros H. apply within_bounds_inv in H.
  change (float_of_Z 10) with (S754_finite false 5629499534213120 (-49)).
  destruct H as [[s ->]|(m & e & -> & Hm & He)].
  - exists 0. split; [reflexivity|lia].
  - unfold fmul, SFmul. cbn [xorb].
    destruct (binary_round_aux_small (m * 5629499534213120) (e + -49))
      as [Hz|(m' & e' & Hf)].
    + rewrite Pos2Z.inj_mul.
      change (2 ^ 106) with (2 ^ 53 * 2 ^ 53).
      assert (Zpos 5629499534213120 < 2 ^ 53) by reflexivity.
      nia.
    + lia.
    + rewrite Hz. exists 0. split; [reflexivity|lia].
    + rewrite Hf. exists (trunc_pos m' e'). split; [reflexivity|].
      unfold trunc_pos. apply Z.shiftl_nonneg. lia.
Qed.

(** C3, as the code has it.  For a reading value within [0, 6553.5] the
    16-bit field is the double-precision product [value * 10] truncated
    toward zero (not rounded), clamped to [0, 65535]: the conversion does
    not raise, the field is in range, and packing it as an unsigned 16-bit
    big-endian field and reading the two bytes back gives it again.  A value
    of 10000.0 gives 65535. *)
Theorem scaled_truncates_and_clamps (x : float) :
  within_bounds x = true ->
  (exists n : Z,
      int_of_float (fmul x (float_of_Z 10)) = Ok n
      /\ scaled x = Ok (clamp_u16 n)
      /\ 0 <= clamp_u16 n <= 65535
      /\ exists hi lo : byte,
           Struct.pack1 Struct.fmt_H (clamp_u16 n) = Ok [hi; lo]
           /\ Struct.unpack_be [hi; lo] = clamp_u16 n)
  /\ scaled (float_of_Z 10000) = Ok 65535.
Proof.
  intros H. split; [|vm_compute; reflexivity].
  destruct (int_of_scaled_product x H) as (n & Hn & Hpos).
  exists n. split; [exact Hn|].
  assert (Hc : 0 <= clamp_u16 n <= 65535) by (unfold clamp_u16; lia).
  split; [|split; [exact Hc|apply pack_H_round_trip, Hc]].
  unfold scaled. rewrite Hn. unfold clamp_u16.
  f_equal. lia.
Qed.

(** C3, as the specification has it, fails: 0.1875 lies within the bounds, its
    product by ten is 1.875, and the field is 1 where rounding gives 2. *)
Lemma scaled_is_not_rounded :
  within_bounds (float_lit 3 (-4)) = true
  /\ scaled (float_lit 3 (-4)) = Ok 1
  /\ scaled_rounded (float_lit 3 (-4)) = Ok 2.
Proof. vm_compute. repeat split. Qed.

(** *** The properties at concrete inputs *)

Lemma malformed_payload_ends_handler_witness :
  sample_validate_json "not json" = None
  /\ (let run :=
        websocket_endpoint sample_validate_json 1%nat "A"
          (text_frame 2000 "not json" :: [text_frame 2001 "e2e"]) fresh in
      fst run = Raise ValidationError
      /\ run = websocket_endpoint sample_validate_json 1%nat "A"
                 [text_frame 2000 "not json"] fresh
      /\ data_manager (snd run) = data_manager fresh
      /\ logs (snd run)
         = logs fresh ++ [info_cc_connected "A"; debug_received "A" "not json"]
      /\ dict_get "A" (computercraft_connections (conn_manager (snd run)))
         = Some 1%nat).
Proof.
  split; [reflexivity|].
  apply (malformed_payload_ends_handler sample_validate_json 1%nat "A"
           "not json" 2000 [text_frame 2001 "e2e"] fresh).
  reflexivity.
Defined.

Lemma scaled_truncates_and_clamps_witness :
  within_bounds (temperature reading_e2e) = true
  /\ ((exists n : Z,
          int_of_float (fmul (temperature reading_e2e) (float_of_Z 10)) = Ok n
          /\ scaled (temperature reading_e2e) = Ok (clamp_u16 n)
          /\ 0 <= clamp_u16 n <= 65535
          /\ exists hi lo : byte,
               Struct.pack1 Struct.fmt_H (clamp_u16 n) = Ok [hi; lo]
               /\ Struct.unpack_be [hi; lo] = clamp_u16 n)
      /\ scaled (float_of_Z 10000) = Ok 65535).
Proof.
  split; [vm_compute; reflexivity|].
  apply (scaled_truncates_and_clamps (temperature reading_e2e)).
  vm_compute; reflexivity.
Defined.

Lemma ingest_stamps_buffer_entry_witness :
  sample_validate_json "b" = Some reading_b
  /\ (let run := (modify (set_wall_clock 2000) ;;;
                  on_text sample_validate_json "A" "b") fresh in
      fst run = Ok tt
      /\ (exists entry : ReactorDataModel,
             data_buffer (data_manager (snd run))
             = data_buffer (data_manager fresh) ++ [entry]
             /\ timestamp entry = Some 2000
             /\ entry = model_copy_timestamp reading_b 2000
             /\ (temperature entry, fuel_level entry, coolant_level entry,
                 waste_level entry, status entry, burn_rate entry,
                 actual_burn_rate entry, alert_status entry)
                = (temperature reading_b, fuel_level reading_b,
                   coolant_level reading_b, waste_level reading_b,
                   status reading_b, burn_rate reading_b,
                   actual_burn_rate reading_b, alert_status reading_b))
      /\ reactor_data (data_manager (snd run)) = reading_b
      /\ timestamp (reactor_data (data_manager (snd run)))
         = timestamp reading_b).
Proof.
  split; [reflexivity|].
  apply (ingest_stamps_buffer_entry sample_validate_json "A" "b" reading_b
           2000 fresh).
  reflexivity.
Defined.

(** C5, as the specification has it, fails for the instance recorded as latest
    state: a reading whose payload carries the timestamp 7, ingested at time
    2000, is recorded in the latest-state slot with the timestamp 7 of the
    payload; only the instance pushed to the buffer is stamped 2000. *)
Lemma latest_state_keeps_payload_timestamp :
  timestamp
    (reactor_data
       (data_manager
          (snd ((modify (set_wall_clock 2000) ;;;
                 on_text sample_validate_json "A" "b") fresh))))
  = Some 7
  /\ timestamp
       (reactor_data
          (data_manager
             (snd ((modify (set_wall_clock 2000) ;;;
                    on_text sample_validate_json "A" "b") fresh))))
     <> Some 2000
  /\ map timestamp
       (data_buffer
          (data_manager
             (snd ((modify (set_wall_clock 2000) ;;;
                    on_text sample_validate_json "A" "b") fresh))))
     = [Some 2000].
Proof.
  split; [reflexivity|]. split; [discriminate|reflexivity].
Qed.

Lemma wrong_secret_rejected_witness :
  "guess" <> SECRET_KEY default_settings
  /\ websocket_route default_settings sample_validate_json 1%nat "A" "guess"
       [text_frame 2000 "e2e"] fresh
     = (Raise (HTTPException 403), fresh).
Proof.
  assert (H : "guess" <> SECRET_KEY default_settings)
    by (apply String.eqb_neq; reflexivity).
  split; [exact H|].
  apply (wrong_secret_rejected default_settings sample_validate_json 1%nat "A"
           "guess" [text_frame 2000 "e2e"] fresh H).
Defined.

Lemma flush_twice_is_flush_once_witness :
  data_buffer (data_manager fresh) = []
  /\ flush_buffer_to_log fresh = (Ok tt, fresh)
  /\ snd (flush_buffer_to_log (snd (flush_buffer_to_log fresh)))
     = snd (flush_buffer_to_log fresh).
Proof.
  split; [reflexivity|]. split.
  - apply (proj2 (proj2 (flush_twice_is_flush_once fresh)) fresh).
    reflexivity.
  - apply (proj1 (flush_twice_is_flush_once fresh)).
Defined.

Lemma add_log_entry_frame_witness :
  timestamp reading_b = Some 7
  /\ wall_clock fresh = 1000
  /\ exists entry : ReactorDataModel,
       data_buffer (data_manager (snd (add_log_entry reading_b fresh)))
       = data_buffer (data_manager fresh) ++ [entry]
       /\ timestamp entry = Some 1000
       /\ status entry = status reading_b
       /\ alert_status entry = alert_status reading_b.
Proof.
  split; [reflexivity|]. split; [reflexivity|].
  pose proof (add_log_entry_frame reading_b fresh) as H. cbv zeta in H.
  destruct H as (_ & (entry & Hb & Ht & _ & _ & _ & _ & Hs & _ & _ & Ha) & _).
  exists entry. repeat split; assumption.
Defined.



(** The same fan-out, evaluated: A's transport is broken, B and C receive
    the command, and the failure of A is in the log. *)
Example fan_out_with_broken_first :
  let run := control_command sample_dump_json "esp" scram []
               (three_producers [1%nat]) in
  ws_sent (snd run) = [(2%nat, "scram"); (3%nat, "scram")]
  /\ logs (snd run)
     = [info_initializing_new;
        info_command {| command := "scram"; value := ValueNone |};
        error_send_command "A" ConnectionClosed].
Proof. split; reflexivity. Qed.

(* ================================================================== *)
(** ** Further properties of the program *)

(** *** The connection registry *)

Lemma dict_get_set_other {V} (k k' : string) (v : V) (d : dict V) :
  k' <> k -> dict_get k' (dict_set k v d) = dict_get k' d.
Proof.
  intros Hne.
  assert (E0 : String.eqb k' k = false) by (apply String.eqb_neq; exact Hne).
  induction d as [|[k0 v0] d IH]; simpl.
  - rewrite E0. reflexivity.
  - destruct (String.eqb k k0) eqn:E; simpl.
    + apply String.eqb_eq in E. subst k0. rewrite E0. reflexivity.
    + rewrite IH. reflexivity.
Qed.

Lemma dict_mem_in_keys {V} (k : string) (d : dict V) :
  dict_mem k d = true <-> In k (keys d).
Proof.
  induction d as [|[k0 v0] d IH]; simpl.
  - split; [discriminate|tauto].
  - destruct (String.eqb k k0) eqn:E.
    + apply String.eqb_eq in E. subst. tauto.
    + apply String.eqb_neq in E. rewrite IH. split; [tauto|].
      intros [H|H]; [congruence|assumption].
Qed.

Lemma keys_dict_set_present {V} (k : string) (v : V) (d : dict V) :
  dict_mem k d = true -> keys (dict_set k v d) = keys d.
Proof.
  induction d as [|[k0 v0] d IH]; simpl; [discriminate|].
  destruct (String.eqb k k0) eqn:E; simpl; [reflexivity|].
  intros H. rewrite (IH H). reflexivity.
Qed.

Lemma dict_set_absent {V} (k : string) (v : V) (d : dict V) :
  dict_mem k d = false -> dict_set k v d = d ++ [(k, v)].
Proof.
  induction d as [|[k0 v0] d IH]; simpl; [reflexivity|].
  destruct (String.eqb k k0) eqn:E; [discriminate|].
  intros H. rewrite (IH H). reflexivity.
Qed.

Lemma NoDup_keys_dict_set {V} (k : string) (v : V) (d : dict V) :
  NoDup (keys d) -> NoDup (keys (dict_set k v d)).
Proof.
  intros Hd. destruct (dict_mem k d) eqn:Hm.
  - rewrite keys_dict_set_present by assumption. exact Hd.
  - rewrite dict_set_absent by assumption.
    unfold keys. rewrite map_app. simpl.
    apply NoDup_app; [exact Hd|repeat constructor; intros []|].
    intros x Hx [<-|[]].
    apply dict_mem_in_keys in Hx. congruence.
Qed.

Lemma in_keys_dict_del {V} (k x : string) (d : dict V) :
  In x (keys (dict_del k d)) -> In x (keys d).
Proof.
  induction d as [|[k0 v0] d IH]; simpl; [tauto|].
  destruct (String.eqb k k0); simpl; tauto.
Qed.

Lemma NoDup_keys_dict_del {V} (k : string) (d : dict V) :
  NoDup (keys d) -> NoDup (keys (dict_del k d)).
Proof.
  induction d as [|[k0 v0] d IH]; simpl; [auto|].
  intros Hd. inversion Hd as [|? ? Hn Hd']; subst.
  destruct (String.eqb k k0); simpl; [assumption|].
  constructor; [|auto].
  intros Hin. apply Hn. eapply in_keys_dict_del, Hin.
Qed.

Lemma dict_get_none_not_in {V} (k : string) (d : dict V) :
  ~ In k (keys d) -> dict_get k d = None.
Proof.
  induction d as [|[k0 v0] d IH]; simpl; [reflexivity|].
  intros Hn. destruct (String.eqb k k0) eqn:E.
  - apply String.eqb_eq in E. subst. tauto.
  - apply IH. tauto.
Qed.

Lemma dict_get_del_same {V} (k : string) (d : dict V) :
  NoDup (keys d) -> dict_get k (dict_del k d) = None.
Proof.
  induction d as [|[k0 v0] d IH]; simpl; [reflexivity|].
  intros Hd. inversion Hd as [|? ? Hn Hd']; subst.
  destruct (String.eqb k k0) eqn:E; simpl.
  - apply String.eqb_eq in E. subst. apply dict_get_none_not_in, Hn.
  - rewrite E. apply IH, Hd'.
Qed.

Lemma dict_get_del_other {V} (k k' : string) (d : dict V) :
  k' <> k -> dict_get k' (dict_del k d) = dict_get k' d.
Proof.
  intros Hne. induction d as [|[k0 v0] d IH]; simpl; [reflexivity|].
  destruct (String.eqb k k0) eqn:E; simpl.
  - apply String.eqb_eq in E. subst k0.
    apply String.eqb_neq in Hne. rewrite Hne. reflexivity.
  - rewrite IH. reflexivity.
Qed.

(** X1.  Registering a producer: afterwards its identifier leads to the
    new handle, whether it was registered before or not, and the entry of
    every other identifier is what it was; nothing but the table of
    connections changes. *)
Theorem add_computercraft_registers (computer_id other : string)
    (websocket : WebSocket) (s : Server) :
  other <> computer_id ->
  let s' := snd (add_computercraft computer_id websocket s) in
  fst (add_computercraft computer_id websocket s) = Ok tt
  /\ dict_get computer_id (connections s') = Some websocket
  /\ dict_get other (connections s') = dict_get other (connections s)
  /\ s' = set_conn_manager
            {| computercraft_connections := connections s';
               esp8266_connected := esp8266_connected (conn_manager s) |} s.
Proof.
  intros Hne. simpl. repeat split.
  - apply dict_get_set_same.
  - apply dict_get_set_other, Hne.
Qed.

(** X2.  Registering an identifier that is already present replaces the
    handle in place: the identifiers and their order stay the same, and
    the superseded socket is not closed or otherwise touched (nothing is
    sent, nothing is logged). *)
Theorem add_computercraft_replaces_in_place (computer_id : string)
    (websocket : WebSocket) (s : Server) :
  dict_mem computer_id (connections s) = true ->
  let s' := snd (add_computercraft computer_id websocket s) in
  keys (connections s') = keys (connections s)
  /\ dict_get computer_id (connections s') = Some websocket
  /\ ws_sent s' = ws_sent s
  /\ accepted s' = accepted s
  /\ logs s' = logs s.
Proof.
  intros Hm. simpl. repeat split.
  - apply keys_dict_set_present, Hm.
  - apply dict_get_set_same.
Qed.

(** X3.  Removing a producer from a registry without duplicates: its
    identifier no longer leads to a handle, and the entry of every other
    identifier is what it was. *)
Theorem remove_computercraft_cleans_up (computer_id other : string)
    (s : Server) :
  unique_ids s ->
  other <> computer_id ->
  let s' := snd (remove_computercraft computer_id s) in
  fst (remove_computercraft computer_id s) = Ok tt
  /\ dict_get computer_id (connections s') = None
  /\ dict_get other (connections s') = dict_get other (connections s)
  /\ unique_ids s'.
Proof.
  intros Hu Hne. unfold remove_computercraft, modify, unique_ids, connections.
  cbn [fst snd].
  destruct (dict_mem computer_id
              (computercraft_connections (conn_manager s))) eqn:Hm; simpl.
  - repeat split.
    + apply dict_get_del_same, Hu.
    + apply dict_get_del_other, Hne.
    + apply NoDup_keys_dict_del, Hu.
  - repeat split; [|exact Hu].
    apply dict_get_none_not_in. intros Hin.
    apply dict_mem_in_keys in Hin. congruence.
Qed.

(** Removing an identifier that is not registered does not raise and
    leaves the whole state as it was. *)
Theorem remove_computercraft_absent (computer_id : string) (s : Server) :
  dict_mem computer_id (connections s) = false ->
  remove_computercraft computer_id s = (Ok tt, s).
Proof.
  intros Hm. unfold remove_computercraft, modify, connections in *.
  rewrite Hm. reflexivity.
Qed.

(** X4.  Whatever another task does to the registry (a producer connects
    or disconnects, the ESP8266 comes or goes), no identifier is ever
    registered twice. *)
Theorem registry_steps_keep_ids_unique (o : option registry_op) (s : Server) :
  unique_ids s -> unique_ids (apply_op o s).
Proof.
  unfold unique_ids, connections, apply_op. intros Hu.
  destruct o as [[computer_id websocket|computer_id|status]|]; simpl;
    try assumption.
  - apply NoDup_keys_dict_set, Hu.
  - destruct (dict_mem computer_id
                (computercraft_connections (conn_manager s))); simpl.
    + apply NoDup_keys_dict_del, Hu.
    + exact Hu.
Qed.

Lemma dict_del_absent {V} (k : string) (d : dict V) :
  dict_mem k d = false -> dict_del k d = d.
Proof.
  induction d as [|[k0 v0] d IH]; simpl; [reflexivity|].
  destruct (String.eqb k k0); [discriminate|].
  intros H. rewrite (IH H). reflexivity.
Qed.

(** What [remove_computercraft] does to each part of the state. *)
Lemma remove_computercraft_effect (computer_id : string) (s : Server) :
  let s' := snd (remove_computercraft computer_id s) in
  fst (remove_computercraft computer_id s) = Ok tt
  /\ connections s' = dict_del computer_id (connections s)
  /\ esp8266_connected (conn_manager s') = esp8266_connected (conn_manager s)
  /\ data_manager s' = data_manager s
  /\ accepted s' = accepted s
  /\ logs s' = logs s
  /\ ws_sent s' = ws_sent s.
Proof.
  unfold remove_computercraft, modify, connections. cbn [fst snd].
  destruct (dict_mem computer_id
              (computercraft_connections (conn_manager s))) eqn:Hm; simpl.
  - repeat split.
  - rewrite (dict_del_absent _ _ Hm). repeat split.
Qed.

(** *** The producer handler, frame by frame *)

Section HandlerRuns.

Variable settings : Settings.
Variable validate_json : string -> option ReactorDataModel.

(** What a frame that validates leaves unchanged. *)
Lemma on_text_valid_effect (computer_id data : string) (r : ReactorDataModel)
    (s : Server) :
  validate_json data = Some r ->
  let s' := snd (on_text validate_json computer_id data s) in
  fst (on_text validate_json computer_id data s) = Ok tt
  /\ data_manager s'
     = {| reactor_data := r;
          data_buffer :=
            data_buffer (data_manager s)
            ++ [model_copy_timestamp r (wall_clock s)];
          log_file := log_file (data_manager s);
          data_log := data_log (data_manager s) |}
  /\ conn_manager s' = conn_manager s
  /\ files s' = files s
  /\ wall_clock s' = wall_clock s
  /\ accepted s' = accepted s
  /\ broken s' = broken s
  /\ ws_sent s' = ws_sent s
  /\ sio_emitted s' = sio_emitted s.
Proof.
  intros Hv. destruct (on_text_valid validate_json computer_id data r s Hv)
    as [tail Ht].
  rewrite Ht. simpl. repeat split.
Qed.

Lemma receive_loop_cons_text (computer_id : string) (t : datetime)
    (data : string) (rest : list ws_event) (s : Server) :
  receive_loop validate_json computer_id (text_frame t data :: rest) s
  = match on_text validate_json computer_id data (set_wall_clock t s) with
    | (Ok _, s1) => receive_loop validate_json computer_id rest s1
    | (Raise e, s1) => (Raise e, s1)
    end.
Proof. reflexivity. Qed.

Lemma receive_loop_text (computer_id : string) (t : datetime) (data : string)
    (rest : list ws_event) (s : Server) (r : ReactorDataModel) :
  validate_json data = Some r ->
  receive_loop validate_json computer_id (text_frame t data :: rest) s
  = receive_loop validate_json computer_id rest
      (snd (on_text validate_json computer_id data (set_wall_clock t s))).
Proof.
  intros Hv. rewrite receive_loop_cons_text.
  destruct (on_text_valid validate_json computer_id data r
              (set_wall_clock t s) Hv) as [tail Ht].
  rewrite Ht. reflexivity.
Qed.

Lemma receive_loop_valid_run (computer_id : string)
    (inbox : list ws_event) :
  forall s : Server,
    forallb (frame_valid validate_json) inbox = true ->
    let run := receive_loop validate_json computer_id inbox s in
    fst run = Ok Receiving
    /\ data_buffer (data_manager (snd run))
       = data_buffer (data_manager s) ++ stamped validate_json inbox
    /\ reactor_data (data_manager (snd run))
       = last_reading validate_json (reactor_data (data_manager s)) inbox
    /\ data_log (data_manager (snd run)) = data_log (data_manager s)
    /\ log_file (data_manager (snd run)) = log_file (data_manager s)
    /\ conn_manager (snd run) = conn_manager s
    /\ files (snd run) = files s
    /\ ws_sent (snd run) = ws_sent s
    /\ sio_emitted (snd run) = sio_emitted s
    /\ accepted (snd run) = accepted s
    /\ wall_clock (snd run) = last_time (wall_clock s) inbox.
Proof.
  induction inbox as [|ev inbox IH]; intros s Hall run; subst run.
  - simpl. rewrite app_nil_r. repeat split.
  - simpl in Hall. apply andb_true_iff in Hall. destruct Hall as [Hev Hall].
    destruct ev as [t data|]; [|discriminate].
    simpl in Hev. destruct (validate_json data) as [r|] eqn:Hv;
      [|discriminate].
    rewrite (receive_loop_text computer_id t data inbox s r Hv).
    destruct (on_text_valid_effect computer_id data r (set_wall_clock t s) Hv)
      as (_ & Hd & Hc & Hf & Hw & Ha & _ & Hs & Hi).
    set (s1 := snd (on_text validate_json computer_id data
                      (set_wall_clock t s))) in *.
    destruct (IH s1 Hall)
      as (H1 & H2 & H3 & H4 & H5 & H6 & H7 & H8 & H9 & H10 & H11).
    cbn [stamped last_reading last_time]. rewrite Hv.
    rewrite H2, H3, H4, H5, H6, H7, H8, H9, H10, H11.
    rewrite Hd, Hc, Hf, Hw, Ha, Hs, Hi. simpl.
    rewrite <- app_assoc. repeat split; assumption.
Qed.


(** Frames handled before a suspension and after it. *)
Lemma receive_loop_app (computer_id : string) (in1 in2 : list ws_event) :
  forall s : Server,
    receive_loop validate_json computer_id (in1 ++ in2) s
    = match receive_loop validate_json computer_id in1 s with
      | (Ok Receiving, s1) => receive_loop validate_json computer_id in2 s1
      | other => other
      end.
Proof.
  induction in1 as [|ev in1 IH]; intros s.
  - reflexivity.
  - destruct ev as [t data|]; [|reflexivity].
    cbn [app]. rewrite !receive_loop_cons_text.
    destruct (on_text validate_json computer_id data (set_wall_clock t s))
      as [[[]|e] s1]; [|reflexivity].
    apply IH.
Qed.

Lemma websocket_endpoint_opened (websocket : WebSocket)
    (computer_id : string) (inbox : list ws_event) (s : Server) :
  websocket_endpoint validate_json websocket computer_id inbox s
  = websocket_resume validate_json computer_id inbox
      (opened websocket computer_id s).
Proof. reflexivity. Qed.

(** X6.  A handler that is suspended after some frames and resumed with
    the frames that follow does what one handler does with all the frames
    in order; a handler that has returned or raised is not resumed. *)
Theorem websocket_endpoint_resumes (websocket : WebSocket)
    (computer_id : string) (in1 in2 : list ws_event) (s : Server) :
  websocket_endpoint validate_json websocket computer_id (in1 ++ in2) s
  = match websocket_endpoint validate_json websocket computer_id in1 s with
    | (Ok Receiving, s1) => websocket_resume validate_json computer_id in2 s1
    | other => other
    end.
Proof.
  rewrite !websocket_endpoint_opened.
  unfold websocket_resume, try_except.
  rewrite receive_loop_app.
  destruct (receive_loop validate_json computer_id in1
              (opened websocket computer_id s)) as [[[|]|e] s1].
  - reflexivity.
  - reflexivity.
  - destruct (is_WebSocketDisconnect e); reflexivity.
Qed.

Lemma dict_mem_set_same {V} (k : string) (v : V) (d : dict V) :
  dict_mem k (dict_set k v d) = true.
Proof.
  induction d as [|[k0 v0] d IH]; simpl.
  - rewrite String.eqb_refl. reflexivity.
  - destruct (String.eqb k k0) eqn:E; simpl; rewrite E; auto.
Qed.


Lemma websocket_resume_disconnect (computer_id : string)
    (rest : list ws_event) (s : Server) :
  websocket_resume validate_json computer_id (peer_disconnects :: rest) s
  = (Ok Returned,
     snd (remove_computercraft computer_id
            (set_logs (logs s ++ [info_cc_disconnected computer_id]) s))).
Proof. reflexivity. Qed.

(** X8.  Two connections under one identifier.  The second replaces the
    first in the registry; when the peer of the first one disconnects, its
    handler removes the entry of the identifier, so the second producer,
    whose handler is still receiving, is no longer registered. *)
Theorem superseded_handler_unregisters_successor (first second : WebSocket)
    (computer_id : string) (s : Server) :
  unique_ids s ->
  let s1 := snd (websocket_endpoint validate_json first computer_id [] s) in
  let s2 := snd (websocket_endpoint validate_json second computer_id [] s1) in
  let s3 :=
    snd (websocket_resume validate_json computer_id [peer_disconnects] s2) in
  fst (websocket_endpoint validate_json second computer_id [] s1)
  = Ok Receiving
  /\ dict_get computer_id (connections s2) = Some second
  /\ fst (websocket_resume validate_json computer_id [peer_disconnects] s2)
     = Ok Returned
  /\ dict_get computer_id (connections s3) = None.
Proof.
  intros Hu s1 s2 s3.
  assert (Hc1 : connections s1 = dict_set computer_id first (connections s))
    by reflexivity.
  assert (Hc2 : connections s2 = dict_set computer_id second (connections s1))
    by reflexivity.
  split; [reflexivity|]. split; [rewrite Hc2; apply dict_get_set_same|].
  split; [reflexivity|].
  subst s3. rewrite websocket_resume_disconnect. cbn [snd].
  destruct (remove_computercraft_effect computer_id
              (set_logs (logs s2 ++ [info_cc_disconnected computer_id]) s2))
    as (_ & Hc & _).
  rewrite Hc.
  change (connections (set_logs (logs s2 ++ [info_cc_disconnected computer_id])
                         s2)) with (connections s2).
  apply dict_get_del_same. rewrite Hc2, Hc1.
  apply NoDup_keys_dict_set, NoDup_keys_dict_set, Hu.
Qed.


(** X10.  A link attempt with the configured secret: the socket is accepted,
    the producer is registered under its identifier, and the handler waits
    for frames. *)
Theorem right_secret_opens_link (websocket : WebSocket)
    (computer_id secret : string) (s : Server) :
  secret = SECRET_KEY settings ->
  let run :=
    websocket_route settings validate_json websocket computer_id secret [] s
  in
  fst run = Ok Receiving
  /\ accepted (snd run) = accepted s ++ [websocket]
  /\ dict_get computer_id (connections (snd run)) = Some websocket
  /\ logs (snd run) = logs s ++ [info_cc_connected computer_id]
  /\ data_manager (snd run) = data_manager s.
Proof.
  intros ->. intros run. subst run.
  unfold websocket_route, get_secret_key, bind at 1.
  rewrite String.eqb_refl. cbn [negb ret].
  rewrite websocket_endpoint_opened.
  repeat split. apply dict_get_set_same.
Qed.

Lemma on_text_invalid (computer_id data : string) (s : Server) :
  validate_json data = None ->
  on_text validate_json computer_id data s
  = (Raise ValidationError,
     set_logs (logs s ++ [debug_received computer_id data]) s).
Proof.
  intros Hv. unfold on_text, ReactorDataModel_model_validate_json.
  rewrite Hv. reflexivity.
Qed.


End HandlerRuns.

(** *** Commands that do not validate *)

(** X12.  An event that is not a valid command (no [command] key, a
    [command] that is not a string, a [value] that is a list or a
    dictionary): the handler logs it as invalid and returns; nothing is
    sent to any producer and nothing else changes, whatever other tasks do
    meanwhile. *)
Theorem invalid_command_is_dropped (dump_json : ControlCommand -> string)
    (sid : string) (data : dict any) (e : exn) (sched : schedule)
    (s : Server) :
  ControlCommand_model_validate data = Raise e ->
  control_command dump_json sid data sched s
  = (Ok tt, set_logs (logs s ++ [error_invalid_command sid data e]) s).
Proof.
  intros Hv. unfold control_command, try_except, bind, lift.
  rewrite Hv. reflexivity.
Qed.

(** Which events do not validate. *)
Lemma command_key_required (data : dict any) :
  (forall c : string, dict_get "command" data <> Some (AStr c)) ->
  ControlCommand_model_validate data = Raise ValidationError.
Proof.
  intros H. unfold ControlCommand_model_validate.
  destruct (dict_get "command" data) as [[| | | |c|]|]; try reflexivity.
  destruct (H c eq_refl).
Qed.

(** *** Flushing, saving and loading the data log *)

Lemma dtype_eqb_eq (a b : dtype) : dtype_eqb a b = true -> a = b.
Proof. destruct a, b; simpl; congruence. Qed.

Lemma schema_eqb_eq (a b : Schema) : schema_eqb a b = true -> a = b.
Proof.
  revert b. induction a as [|[n dt] a IH]; intros [|[n' dt'] b]; simpl;
    try discriminate; [reflexivity|].
  unfold column_eqb; simpl. intros H.
  apply andb_true_iff in H. destruct H as [H Hs].
  apply andb_true_iff in H. destruct H as [Hn Hd].
  apply String.eqb_eq in Hn. apply dtype_eqb_eq in Hd.
  rewrite (IH b Hs). congruence.
Qed.

(** The rows of the frame built from readings are their dumps, stored
    under the columns of the frame. *)
Lemma DataFrame_of_dumps_rows (items : list ReactorDataModel)
    (df : DataFrame) :
  DataFrame_of_dumps items = Ok df ->
  store_rows (schema df) (map (fun m => map snd (model_dump m)) items)
  = Some (rows df).
Proof.
  unfold DataFrame_of_dumps. destruct items as [|b bs].
  - intros [= <-]. reflexivity.
  - destruct (negb _); [discriminate|].
    destruct (store_rows _ _) as [rs|] eqn:Er; [|discriminate].
    intros [= <-]. exact Er.
Qed.

Lemma store_row_length (sch : Schema) (vs r : list pyval) :
  store_row sch vs = Some r -> List.length r = List.length vs.
Proof.
  revert vs r. induction sch as [|[n dt] sch IH]; intros [|v vs] r; simpl;
    try discriminate.
  - intros [= <-]. reflexivity.
  - destruct (store dt v) as [c|]; [|discriminate].
    destruct (store_row sch vs) as [r'|] eqn:Er; [|discriminate].
    intros [= <-]. simpl. f_equal. apply IH, Er.
Qed.

Lemma store_rows_length (sch : Schema) (data rs : list (list pyval)) :
  store_rows sch data = Some rs -> List.length rs = List.length data.
Proof.
  revert rs. induction data as [|vs data IH]; intros rs; simpl.
  - intros [= <-]. reflexivity.
  - destruct (store_row sch vs) as [r|]; [|discriminate].
    destruct (store_rows sch data) as [rs'|]; [|discriminate].
    intros [= <-]. simpl. f_equal. apply IH. reflexivity.
Qed.

Lemma concat_ok (a b m : DataFrame) :
  concat a b = Ok m -> schema m = schema a /\ rows m = rows a ++ rows b.
Proof.
  unfold concat. destruct (negb _); [discriminate|].
  destruct (schema_eqb _ _); [|discriminate].
  intros [= <-]. split; reflexivity.
Qed.

Lemma flush_outcomes (s : Server) :
  (exists e : exn, flush_buffer_to_log s = (Raise e, s))
  \/ (let s' := snd (flush_buffer_to_log s) in
      fst (flush_buffer_to_log s) = Ok tt
      /\ data_buffer (data_manager s') = []
      /\ (exists stored : list (list pyval),
            store_rows (schema (data_log (data_manager s)))
              (map (fun m => map snd (model_dump m))
                 (data_buffer (data_manager s)))
            = Some stored
            /\ List.length stored
               = List.length (data_buffer (data_manager s))
            /\ rows (data_log (data_manager s'))
               = rows (data_log (data_manager s)) ++ stored)
      /\ schema (data_log (data_manager s'))
         = schema (data_log (data_manager s))
      /\ log_file (data_manager s') = log_file (data_manager s)
      /\ reactor_data (data_manager s') = reactor_data (data_manager s)
      /\ files s' = files s
      /\ conn_manager s' = conn_manager s).
Proof.
  destruct (data_buffer (data_manager s)) as [|b bs] eqn:Eb.
  - right. rewrite (flush_empty_buffer s Eb). simpl.
    rewrite Eb. repeat split.
    exists []. rewrite app_nil_r. repeat split.
  - rewrite flush_nonempty_buffer by congruence. rewrite Eb.
    destruct (DataFrame_of_dumps (b :: bs)) as [nd|e] eqn:Ed; [|left; eauto].
    destruct (concat (data_log (data_manager s)) nd) as [m|e] eqn:Ec;
      [|left; eauto].
    right.
    assert (Hsch : schema (data_log (data_manager s)) = schema nd).
    { unfold concat in Ec. destruct (negb _); [discriminate|].
      destruct (schema_eqb _ _) eqn:Es; [|discriminate].
      apply schema_eqb_eq, Es. }
    apply concat_ok in Ec. destruct Ec as [Hs Hr].
    apply DataFrame_of_dumps_rows in Ed.
    simpl. rewrite Hs, Hr. repeat split.
    exists (rows nd). rewrite Hsch. split; [exact Ed|]. split; [|reflexivity].
    rewrite (store_rows_length _ _ _ Ed), length_map. reflexivity.
Qed.

(** X13.  A flush is all or nothing.  Either it raises and the state,
    buffer included, is exactly what it was; or it returns, the buffer is
    empty, and the data log has its former rows followed by one row per
    buffered reading, in buffer order, under the same columns: each row is
    the dump of its reading as the columns of the log store it (in a text
    column a boolean status is stored as ['true'] or ['false']).  In
    neither case does it touch the files or the registry. *)
Theorem flush_all_or_nothing (s : Server) :
  (exists e : exn, flush_buffer_to_log s = (Raise e, s))
  \/ (let s' := snd (flush_buffer_to_log s) in
      fst (flush_buffer_to_log s) = Ok tt
      /\ data_buffer (data_manager s') = []
      /\ (exists stored : list (list pyval),
            store_rows (schema (data_log (data_manager s)))
              (map (fun m => map snd (model_dump m))
                 (data_buffer (data_manager s)))
            = Some stored
            /\ List.length stored
               = List.length (data_buffer (data_manager s))
            /\ rows (data_log (data_manager s'))
               = rows (data_log (data_manager s)) ++ stored)
      /\ schema (data_log (data_manager s'))
         = schema (data_log (data_manager s))
      /\ log_file (data_manager s') = log_file (data_manager s)
      /\ reactor_data (data_manager s') = reactor_data (data_manager s)
      /\ files s' = files s
      /\ conn_manager s' = conn_manager s).
Proof. exact (flush_outcomes s). Qed.

(** The frame built from readings, evaluated.  A status that is a [bool]
    in one reading and a [str] in another gives a text column, in which
    the [bool] is stored as its text; an alert code beyond 64 bits gives
    an [Int128] column; one beyond 128 bits is refused. *)
Example DataFrame_of_dumps_mixed_status :
  option_map (fun df => (dict_get "status" (schema df),
                         map (fun r => nth 5 r PyNone) (rows df)))
    (match DataFrame_of_dumps (data_buffer (data_manager text_buffered)) with
     | Ok df => Some df
     | Raise _ => None
     end)
  = Some (Some Utf8, [PyStr "true"; PyStr "on"]).
Proof. reflexivity. Qed.

Example DataFrame_of_dumps_wide_alert :
  option_map (fun df => (dict_get "alert_status" (schema df),
                         map (fun r => nth 8 r PyNone) (rows df)))
    (match DataFrame_of_dumps [reading_b; reading_wide] with
     | Ok df => Some df
     | Raise _ => None
     end)
  = Some (Some Int128, [PyInt 0; PyInt (2 ^ 70)])
  /\ DataFrame_of_dumps [reading_b; reading_huge] = Raise OverflowError.
Proof. split; reflexivity. Qed.

Lemma save_log_to_disk_eq (s : Server) :
  save_log_to_disk s
  = match flush_buffer_to_log s with
    | (Raise e, s1) => (Raise e, s1)
    | (Ok _, s1) =>
        if negb (is_empty (data_log (data_manager s1)))
        then (Ok tt,
              set_logs (logs s1 ++ [info_saved (log_file (data_manager s1))])
                (set_files
                   (dict_set (log_file (data_manager s1))
                      (data_log (data_manager s1)) (files s1)) s1))
        else (Ok tt, s1)
    end.
Proof.
  unfold save_log_to_disk, bind at 1.
  destruct (flush_buffer_to_log s) as [[[]|e] s1]; [|reflexivity].
  unfold bind at 1. unfold gets at 1.
  destruct (negb (is_empty (data_log (data_manager s1)))); reflexivity.
Qed.

(** X14.  Saving and loading.  When the flush succeeds and leaves a data log
    with rows, [save_log_to_disk] writes the whole data log to the log file,
    and a [DataManager] constructed on that file afterwards starts with
    exactly that data log, an empty buffer and the default latest state. *)
Theorem save_then_load_round_trip (s : Server) :
  fst (flush_buffer_to_log s) = Ok tt ->
  is_empty (data_log (data_manager (snd (flush_buffer_to_log s)))) = false ->
  let s' := snd (save_log_to_disk s) in
  let path := log_file (data_manager s) in
  fst (save_log_to_disk s) = Ok tt
  /\ data_log (data_manager s')
     = data_log (data_manager (snd (flush_buffer_to_log s)))
  /\ dict_get path (files s') = Some (data_log (data_manager s'))
  /\ fst (DataManager_init path s')
     = Ok {| reactor_data := ReactorDataModel_default;
             data_buffer := [];
             log_file := path;
             data_log := data_log (data_manager s') |}.
Proof.
  intros Hok Hne s' path. subst s' path.
  assert (Hp : log_file (data_manager (snd (flush_buffer_to_log s)))
               = log_file (data_manager s)).
  { destruct (flush_outcomes s) as [[e He]|H].
    - rewrite He. reflexivity.
    - destruct H as (_ & _ & _ & _ & H & _). exact H. }
  rewrite save_log_to_disk_eq.
  destruct (flush_buffer_to_log s) as [[[]|e] s1]; [|discriminate].
  cbn [snd] in Hne, Hp. rewrite Hne. cbn [negb fst snd].
  rewrite Hp. cbn [data_manager set_logs set_files files].
  assert (Hg : dict_get (log_file (data_manager s))
                 (dict_set (log_file (data_manager s))
                    (data_log (data_manager s1)) (files s1))
               = Some (data_log (data_manager s1)))
    by apply dict_get_set_same.
  repeat split; [exact Hg|].
  unfold DataManager_init, _load_or_initialize_log, bind at 1.
  unfold bind at 1. unfold gets at 1. cbn [files set_logs set_files].
  rewrite Hg. reflexivity.
Qed.

(** X15.  The log file is left alone unless there is something to write:
    when the flush raises, or leaves a data log without rows, the files
    after [save_log_to_disk] are the files before. *)
Theorem save_skips_disk (s : Server) :
  fst (flush_buffer_to_log s) <> Ok tt
  \/ is_empty (data_log (data_manager (snd (flush_buffer_to_log s)))) = true ->
  files (snd (save_log_to_disk s)) = files s.
Proof.
  intros H. rewrite save_log_to_disk_eq.
  destruct (flush_outcomes s) as [[e He]|Hf].
  - rewrite He. reflexivity.
  - destruct Hf as (Hok & _ & _ & _ & _ & _ & Hfiles & _).
    destruct H as [H|H]; [congruence|].
    destruct (flush_buffer_to_log s) as [[[]|e] s1]; cbn [snd] in *.
    + rewrite H. exact Hfiles.
    + exact Hfiles.
Qed.

(** The periodic saver has no handler of its own: when the flush
    raises, the first tick raises the same exception out of the loop,
    whatever number of ticks was to come, and leaves the state as it
    was. *)
Theorem periodic_data_saver_stops_at_failure (e : exn) (ticks : nat)
    (s : Server) :
  flush_buffer_to_log s = (Raise e, s) ->
  periodic_data_saver (S ticks) s = (Raise e, s).
Proof.
  intros Hf. cbn [periodic_data_saver]. unfold bind at 1.
  rewrite save_log_to_disk_eq, Hf. reflexivity.
Qed.

(** X16.  The history query with a limit that is not negative: after a
    flush that succeeds it returns the last [limit] rows of the data log
    (all of them when there are fewer), oldest first, as dictionaries keyed
    by column. *)
Theorem get_data_log_returns_last_rows (limit : Z) (s : Server) :
  0 <= limit ->
  fst (flush_buffer_to_log s) = Ok tt ->
  let table := data_log (data_manager (snd (flush_buffer_to_log s))) in
  exists recent older : list (dict pyval),
    get_data_log limit s = (Ok recent, snd (flush_buffer_to_log s))
    /\ DataFrame_to_dicts table = older ++ recent
    /\ List.length recent = Nat.min (Z.to_nat limit) (height table).
Proof.
  intros Hl Hok table.
  set (k := Z.to_nat (Z.of_nat (height table)
                      - Z.min limit (Z.of_nat (height table)))).
  exists (map (fun row => combine (map fst (schema table)) row)
            (skipn k (rows table))),
         (map (fun row => combine (map fst (schema table)) row)
            (firstn k (rows table))).
  split; [|split].
  - unfold get_data_log, bind at 1. subst table.
    destruct (flush_buffer_to_log s) as [[[]|e] s1]; [|discriminate].
    cbn [snd] in *. unfold bind, gets, ret.
    unfold DataFrame_to_dicts, DataFrame_tail. cbn [schema rows].
    replace (limit <? 0) with false by (symmetry; apply Z.ltb_ge; lia).
    reflexivity.
  - unfold DataFrame_to_dicts. rewrite <- map_app, firstn_skipn. reflexivity.
  - rewrite length_map, length_skipn. unfold height in *. lia.
Qed.

(** *** Scaling readings that are out of range *)

Lemma shr_1_div2 (mrs : shr_record) :
  0 <= shr_m mrs -> shr_m (shr_1 mrs) = shr_m mrs / 2.
Proof.
  intros H. rewrite <- Z.div2_div.
  destruct mrs as [m r s]. simpl in *.
  destruct m as [|[p|p|]|[p|p|]]; try reflexivity; lia.
Qed.

Lemma iter_shr_1_div (p : positive) :
  forall mrs : shr_record,
    0 <= shr_m mrs ->
    shr_m (iter_pos shr_1 p mrs) = shr_m mrs / 2 ^ Zpos p.
Proof.
  assert (Hnn : forall q mrs, 0 <= shr_m mrs ->
                  0 <= shr_m (iter_pos shr_1 q mrs)).
  { intros q mrs H.
    apply (iter_pos_invariant (fun x => 0 <= shr_m x <= shr_m mrs)); [|lia].
    intros x. apply shr_1_bounds. }
  induction p as [p IH|p IH|]; intros mrs H; cbn [iter_pos].
  - assert (H1 : 0 <= shr_m (shr_1 mrs))
      by (apply (shr_1_bounds mrs (shr_m mrs)); lia).
    assert (Hp : 0 < 2 ^ Zpos p) by (apply Z.pow_pos_nonneg; lia).
    rewrite IH by (apply Hnn; exact H1).
    rewrite IH by exact H1. rewrite shr_1_div2 by exact H.
    rewrite (Z.div_div (shr_m mrs) 2 (2 ^ Zpos p)) by lia.
    rewrite Z.div_div by lia. f_equal.
    replace (Zpos p~1) with (Zpos p + Zpos p + 1) by lia.
    rewrite !Z.pow_add_r by lia. change (2 ^ 1) with 2. ring.
  - assert (Hp : 0 < 2 ^ Zpos p) by (apply Z.pow_pos_nonneg; lia).
    rewrite IH by (apply Hnn; exact H). rewrite IH by exact H.
    rewrite Z.div_div by lia. f_equal.
    replace (Zpos p~0) with (Zpos p + Zpos p) by lia.
    rewrite Z.pow_add_r by lia. reflexivity.
  - apply shr_1_div2, H.
Qed.

(** The first step of rounding divides the mantissa by a power of two. *)
Lemma shr_fexp_exact (m e : Z) (l : location) :
  0 <= m ->
  let out := shr_fexp prec emax m e l in
  shr_m (fst out) = m / 2 ^ (snd out - e)
  /\ snd out = Z.max e (fexp prec emax (Zdigits2 m + e)).
Proof.
  intros Hm. unfold shr_fexp, shr.
  assert (H0 : shr_m (shr_record_of_loc m l) = m)
    by (destruct l as [|[| |]]; reflexivity).
  destruct (fexp prec emax (Zdigits2 m + e) - e) as [|p|p] eqn:Hn;
    cbn [fst snd].
  - replace (e - e) with 0 by lia. rewrite H0, Z.div_1_r. split; lia.
  - rewrite iter_shr_1_div by lia. rewrite H0.
    replace (e + Zpos p - e) with (Zpos p) by lia. split; lia.
  - replace (e - e) with 0 by lia. rewrite H0, Z.div_1_r. split; lia.
Qed.

Lemma digits2_pos_le (p : positive) : 2 ^ Zpos (digits2_pos p) <= 2 * Zpos p.
Proof.
  rewrite digits2_pos_size.
  change (2 * Zpos p) with (Zpos p~0).
  rewrite <- Pos2Z.inj_pow. apply Pos2Z.pos_le_pos, Pos.size_le.
Qed.

Lemma Zdigits2_ge (p : positive) (k : Z) :
  0 <= k -> 2 ^ k <= Zpos p -> k + 1 <= Zdigits2 (Zpos p).
Proof.
  intros Hk H. simpl.
  pose proof (digits2_pos_gt p) as Hgt.
  destruct (Z_lt_le_dec (Zpos (digits2_pos p)) (k + 1)) as [Hlt|]; [|lia].
  assert (2 ^ Zpos (digits2_pos p) <= 2 ^ k)
    by (apply Z.pow_le_mono_r; lia).
  lia.
Qed.

Lemma round_nearest_even_ge (m : Z) (l : location) :
  m <= round_nearest_even m l.
Proof.
  unfold round_nearest_even.
  destruct l as [|[| |]]; try destruct (Z.even m); lia.
Qed.

(** Rounding keeps the sign and never produces a NaN. *)
Lemma binary_round_aux_sign (sx : bool) (mx : positive) (ex : Z) :
  binary_round_aux prec emax sx (Zpos mx) ex loc_Exact = S754_zero sx
  \/ binary_round_aux prec emax sx (Zpos mx) ex loc_Exact = S754_infinity sx
  \/ exists (m : positive) (e : Z),
       binary_round_aux prec emax sx (Zpos mx) ex loc_Exact
       = S754_finite sx m e.
Proof.
  unfold binary_round_aux.
  pose proof (shr_fexp_bounds (Zpos mx) ex loc_Exact ltac:(lia)) as H1.
  destruct (shr_fexp prec emax (Zpos mx) ex loc_Exact) as [mrs' e'].
  cbn [fst snd] in H1. destruct H1 as [Hm' _].
  pose proof (round_nearest_even_bounds (shr_m mrs')
                (loc_of_shr_record mrs') ltac:(lia)) as Hm1.
  pose proof (shr_fexp_bounds
                (round_nearest_even (shr_m mrs') (loc_of_shr_record mrs'))
                e' loc_Exact ltac:(lia)) as H2.
  destruct (shr_fexp prec emax _ e' loc_Exact) as [mrs'' e''].
  cbn [fst snd] in H2. destruct H2 as [Hm'' _].
  destruct (shr_m mrs'') as [|m|m].
  - left. reflexivity.
  - destruct (e'' <=? emax - prec); [right; right; eauto|right; left; auto].
  - lia.
Qed.

Lemma Zdigits2_lower (z k : Z) :
  0 <= k -> 2 ^ k <= z -> k + 1 <= Zdigits2 z.
Proof.
  intros Hk H.
  assert (0 < 2 ^ k) by (apply Z.pow_pos_nonneg; lia).
  destruct z as [|p|p]; try lia.
  apply Zdigits2_ge; assumption.
Qed.

(** Rounding a product that is at least 65535: the result is an infinity or
    a finite float whose integer part is at least 65535. *)
Lemma binary_round_aux_large (mx : positive) (ex : Z) :
  2 ^ 104 <= Zpos mx < 2 ^ 106 ->
  -89 <= ex ->
  (ex < 0 -> 65535 * 2 ^ (- ex) <= Zpos mx) ->
  binary_round_aux prec emax false (Zpos mx) ex loc_Exact = S754_infinity false
  \/ exists (m : positive) (e : Z),
       binary_round_aux prec emax false (Zpos mx) ex loc_Exact
       = S754_finite false m e
       /\ 65535 <= trunc_pos m e.
Proof.
  intros [Hlo Hhi] Hex Hval. unfold binary_round_aux.
  pose proof (shr_fexp_exact (Zpos mx) ex loc_Exact ltac:(lia)) as H1.
  destruct (shr_fexp prec emax (Zpos mx) ex loc_Exact) as [mrs' e'].
  cbn [fst snd] in H1. destruct H1 as [Hq He'].
  pose proof (digits2_pos_gt mx) as Hgt.
  pose proof (digits2_pos_le mx) as Hle.
  change (Zpos (digits2_pos mx)) with (Zdigits2 (Zpos mx)) in Hgt, Hle.
  assert (Hd : 105 <= Zdigits2 (Zpos mx) <= 106).
  { split; [apply (Zdigits2_ge mx 104); lia|apply Zdigits2_le; lia]. }
  set (d := Zdigits2 (Zpos mx)) in *.
  unfold fexp, emin, prec, emax in He'.
  change IntDef.Z.max with Z.max in He'.
  assert (He'1 : e' - ex = d - 53) by lia.
  rewrite He'1 in Hq.
  set (P := 2 ^ (d - 53)) in *.
  assert (HP : 0 < P) by (apply Z.pow_pos_nonneg; lia).
  assert (HdP : 2 ^ d = P * 2 ^ 53).
  { unfold P. rewrite <- Z.pow_add_r by lia. f_equal. lia. }
  rewrite HdP in Hgt, Hle.
  change (2 ^ 53) with 9007199254740992 in Hgt, Hle.
  assert (Hq1 : 4503599627370496 <= shr_m mrs' < 9007199254740992).
  { rewrite Hq. split.
    - apply Z.div_le_lower_bound; lia.
    - apply Z.div_lt_upper_bound; lia. }
  set (m1 := round_nearest_even (shr_m mrs') (loc_of_shr_record mrs')).
  assert (Hm1 : shr_m mrs' <= m1 <= shr_m mrs' + 1).
  { split; [apply round_nearest_even_ge|].
    apply round_nearest_even_bounds. lia. }
  pose proof (shr_fexp_exact m1 e' loc_Exact ltac:(lia)) as H2.
  destruct (shr_fexp prec emax m1 e' loc_Exact) as [mrs'' e''].
  cbn [fst snd] in H2. destruct H2 as [Hm'' He''].
  assert (Hd1 : 53 <= Zdigits2 m1 <= 54).
  { split.
    - apply (Zdigits2_lower m1 52); [lia|].
      change (2 ^ 52) with 4503599627370496. lia.
    - apply Zdigits2_le; [|lia].
      change (2 ^ 54) with 18014398509481984. lia. }
  unfold fexp, emin, prec, emax in He''.
  change IntDef.Z.max with Z.max in He''.
  assert (Hstep : e'' - e' = 0 \/ e'' - e' = 1) by lia.
  assert (Hm2 : 2251799813685248 <= shr_m mrs''
                /\ (forall k, 0 <= k -> 2 ^ (e'' - e') * k <= m1 ->
                      k <= shr_m mrs'')).
  { rewrite Hm''. destruct Hstep as [-> | ->].
    - change (2 ^ 0) with 1. rewrite Z.div_1_r. split; [lia|].
      intros k _ Hk. lia.
    - change (2 ^ 1) with 2. split.
      + apply Z.div_le_lower_bound; lia.
      + intros k _ Hk. apply Z.div_le_lower_bound; lia. }
  destruct Hm2 as [Hm2 Hdiv].
  destruct (shr_m mrs'') as [|m|m] eqn:Hs; try lia.
  destruct (e'' <=? emax - prec); [|left; reflexivity].
  right. exists m, e''. split; [reflexivity|].
  unfold trunc_pos.
  destruct (Z_lt_le_dec e'' 0) as [Hneg|Hpos].
  - replace e'' with (- (- e'')) at 1 by lia.
    rewrite Z.shiftl_opp_r, Z.shiftr_div_pow2 by lia.
    assert (HP2 : 0 < 2 ^ (- e'')) by (apply Z.pow_pos_nonneg; lia).
    apply Z.div_le_lower_bound; [lia|].
    assert (Hsplit : 2 ^ (- ex) = 2 ^ (- e'') * 2 ^ (e'' - e') * P).
    { unfold P. rewrite <- !Z.pow_add_r by lia. f_equal. lia. }
    assert (Hex0 : ex < 0) by lia.
    specialize (Hval Hex0). rewrite Hsplit in Hval.
    assert (HR : 0 < 2 ^ (e'' - e')) by (apply Z.pow_pos_nonneg; lia).
    set (A := 2 ^ (- e'')) in *. set (R := 2 ^ (e'' - e')) in *.
    assert (Hq2 : 65535 * A * R <= shr_m mrs').
    { rewrite Hq. apply Z.div_le_lower_bound; [lia|]. lia. }
    assert (Hk : 65535 * A <= Zpos m) by (apply Hdiv; lia).
    lia.
  - rewrite Z.shiftl_mul_pow2 by lia.
    assert (HP2 : 0 < 2 ^ e'') by (apply Z.pow_pos_nonneg; lia).
    nia.
Qed.

(** X17.  Readings of 6553.5 and more are clamped: the field is 65535,
    not a wrapped value.  The one exception is a reading so large that its
    product by ten is infinite, on which [int] raises [OverflowError]. *)
Theorem scaled_clamps_above (x : float) :
  valid_binary prec emax x = true ->
  fleb max_exact x = true ->
  scaled x = Ok 65535
  \/ (fmul x (float_of_Z 10) = S754_infinity false
      /\ scaled x = Raise OverflowError).
Proof.
  intros Hvalid Hge.
  change max_exact with (S754_finite false 7205649452630016 (-40)) in Hge.
  unfold scaled.
  change (float_of_Z 10) with (S754_finite false 5629499534213120 (-49)).
  unfold fleb, SFleb, SFcompare in Hge.
  destruct x as [s|s| |s m e]; try discriminate.
  - destruct s; [discriminate|]. right. split; reflexivity.
  - destruct s; [discriminate|].
    assert (Hcmp : -40 < e \/ (e = -40 /\ (7205649452630016 <= m)%positive)).
    { destruct (-40 ?= e) eqn:He.
      - apply Z.compare_eq in He. right. split; [lia|].
        unfold Pos.le, Pos.compare. intros Hgt.
        change PosDef.Pos.compare_cont with Pos.compare_cont in Hge.
        rewrite Hgt in Hge. discriminate.
      - apply Z.compare_lt_iff in He. left. exact He.
      - discriminate. }
    simpl in Hvalid. unfold bounded in Hvalid.
    apply andb_true_iff in Hvalid. destruct Hvalid as [Hcan _].
    unfold canonical_mantissa in Hcan. apply Z.eqb_eq in Hcan.
    unfold fexp, emin, prec, emax in Hcan.
    change IntDef.Z.max with Z.max in Hcan.
    assert (Hd : Zpos (digits2_pos m) = 53) by lia.
    pose proof (digits2_pos_gt m) as Hgt.
    pose proof (digits2_pos_le m) as Hle.
    rewrite Hd in Hgt, Hle.
    change (2 ^ 53) with 9007199254740992 in Hgt, Hle.
    unfold fmul, SFmul. cbn [xorb].
    destruct (binary_round_aux_large (m * 5629499534213120) (e + -49))
      as [Hinf|(m' & e' & Hfin & Hbig)].
    + rewrite Pos2Z.inj_mul.
      change (2 ^ 104) with 20282409603651670423947251286016.
      change (2 ^ 106) with 81129638414606681695789005144064.
      lia.
    + lia.
    + intros Hneg. rewrite Pos2Z.inj_mul.
      destruct Hcmp as [He|[He Hm]].
      * assert (Hpow : 2 ^ (- (e + -49)) <= 2 ^ 88)
          by (apply Z.pow_le_mono_r; lia).
        change (2 ^ 88) with 309485009821345068724781056 in Hpow.
        lia.
      * subst e. change (2 ^ (- (-40 + -49)))
          with 618970019642690137449562112.
        assert (7205649452630016 <= Zpos m) by (apply Pos2Z.pos_le_pos, Hm).
        lia.
    + right. rewrite Hinf. split; reflexivity.
    + left. rewrite Hfin. cbn [int_of_float cond_Zopp].
      f_equal. lia.
Qed.

(** X18.  A negative reading is never turned into a large unsigned value:
    its field is zero or negative, and [struct.pack] refuses a negative
    value for an unsigned 16-bit item.  (A reading whose product by ten is
    infinite makes [int] raise [OverflowError].) *)
Theorem scaled_negative_never_wraps (m : positive) (e : Z) :
  scaled (S754_finite true m e) = Raise OverflowError
  \/ exists n : Z,
       scaled (S754_finite true m e) = Ok n
       /\ n <= 0
       /\ (n = 0 \/ Struct.pack1 Struct.fmt_H n = Raise struct_error).
Proof.
  unfold scaled.
  change (float_of_Z 10) with (S754_finite false 5629499534213120 (-49)).
  unfold fmul, SFmul. cbn [xorb].
  destruct (binary_round_aux_sign true (m * 5629499534213120) (e + -49))
    as [Hz|[Hinf|(m' & e' & Hfin)]].
  - right. exists 0. rewrite Hz. repeat split; auto. lia.
  - left. rewrite Hinf. reflexivity.
  - right. rewrite Hfin. cbn [int_of_float cond_Zopp].
    assert (Ht : 0 <= trunc_pos m' e')
      by (unfold trunc_pos; apply Z.shiftl_nonneg; lia).
    exists (- trunc_pos m' e'). split; [f_equal; lia|]. split; [lia|].
    destruct (Z.eq_dec (trunc_pos m' e') 0) as [E|E]; [left; lia|].
    right. unfold Struct.pack1.
    replace (0 <=? - trunc_pos m' e') with false
      by (symmetry; apply Z.leb_gt; lia).
    reflexivity.
Qed.

(** *** The data log on its two schemas *)

Lemma store_row_plain (m : ReactorDataModel) :
  plain_reading m = true ->
  store_row inferred_schema (map snd (model_dump m))
  = Some (map snd (model_dump m)).
Proof.
  unfold plain_reading.
  destruct (timestamp m) eqn:Et; [|discriminate].
  destruct (status m) eqn:Es; [|discriminate].
  intros Hf. unfold model_dump, inferred_schema. rewrite Et, Es.
  cbn [map snd store_row store]. rewrite Hf. reflexivity.
Qed.

Lemma store_rows_plain (buf : list ReactorDataModel) :
  forallb plain_reading buf = true ->
  store_rows inferred_schema (map (fun m => map snd (model_dump m)) buf)
  = Some (map (fun m => map snd (model_dump m)) buf).
Proof.
  induction buf as [|b bs IH]; [reflexivity|].
  cbn [forallb map store_rows]. intros H.
  apply andb_true_iff in H. destruct H as [Hb Hbs].
  rewrite (store_row_plain b Hb), (IH Hbs). reflexivity.
Qed.

Lemma forallb_firstn {A} (f : A -> bool) (n : nat) (l : list A) :
  forallb f l = true -> forallb f (firstn n l) = true.
Proof.
  revert n. induction l as [|x l IH]; intros [|n]; simpl; try reflexivity.
  intros H. apply andb_true_iff in H. destruct H as [Hx Hl].
  rewrite Hx. apply IH, Hl.
Qed.

Lemma dumps_schema_plain (window : list ReactorDataModel) :
  window <> [] ->
  forallb plain_reading window = true ->
  dumps_schema window = inferred_schema.
Proof.
  intros Hne Hall.
  assert (Ht : timestamp_dtype window = Datetime).
  { unfold timestamp_dtype. destruct window as [|m w]; [congruence|].
    cbn [forallb] in *. apply andb_true_iff in Hall. destruct Hall as [Hm _].
    unfold plain_reading in Hm. destruct (timestamp m); [|discriminate].
    reflexivity. }
  assert (Hs : status_dtype window = Boolean).
  { unfold status_dtype.
    replace (forallb _ window) with true; [reflexivity|].
    symmetry. apply forallb_forall. intros m Hm.
    rewrite forallb_forall in Hall. specialize (Hall m Hm).
    unfold plain_reading in Hall.
    destruct (timestamp m); [|discriminate].
    destruct (status m); [reflexivity|discriminate]. }
  assert (Ha : alert_status_dtype window = Int64).
  { unfold alert_status_dtype.
    replace (forallb _ window) with true; [reflexivity|].
    symmetry. apply forallb_forall. intros m Hm.
    rewrite forallb_forall in Hall. specialize (Hall m Hm).
    unfold plain_reading in Hall.
    destruct (timestamp m); [|discriminate].
    destruct (status m); [exact Hall|discriminate]. }
  unfold dumps_schema. rewrite Ht, Hs, Ha. reflexivity.
Qed.

Lemma fits_int64_int128 (z : Z) :
  fits_int64 (PyInt z) = true -> fits_int128 (PyInt z) = true.
Proof.
  unfold fits_int64, fits_int128. intros H.
  apply andb_true_iff in H. destruct H as [H1 H2].
  apply Z.leb_le in H1. apply Z.ltb_lt in H2.
  apply andb_true_iff. split; [apply Z.leb_le|apply Z.ltb_lt].
  - apply Z.le_trans with (- 2 ^ 63); [|exact H1]. vm_compute. discriminate.
  - apply Z.lt_trans with (2 ^ 63); [exact H2|]. reflexivity.
Qed.

Lemma DataFrame_of_dumps_plain (buf : list ReactorDataModel) :
  buf <> [] ->
  forallb plain_reading buf = true ->
  DataFrame_of_dumps buf
  = Ok {| schema := inferred_schema;
          rows := map (fun m => map snd (model_dump m)) buf |}.
Proof.
  intros Hne Hall.
  assert (H1 : forallb (fun m => fits_int128 (PyInt (alert_status m))) buf
               = true).
  { apply forallb_forall. intros m Hm.
    rewrite forallb_forall in Hall. specialize (Hall m Hm).
    apply fits_int64_int128. unfold plain_reading in Hall.
    destruct (timestamp m); [|discriminate].
    destruct (status m); [exact Hall|discriminate]. }
  assert (H2 : dumps_schema (firstn infer_schema_length buf)
               = inferred_schema).
  { apply dumps_schema_plain.
    - destruct buf; [congruence|discriminate].
    - apply forallb_firstn, Hall. }
  unfold DataFrame_of_dumps.
  destruct buf as [|b bs]; [congruence|].
  rewrite H1, H2. cbn [negb].
  rewrite (store_rows_plain _ Hall). reflexivity.
Qed.

(** X19.  On a data log whose columns have the types that Polars infers
    (a log loaded from such a file), the flush works: when every buffered
    reading is stamped, has a boolean status and an alert code of 64 bits,
    all of them are appended as rows, in buffer order, and the buffer is
    emptied. *)
Theorem flush_appends_on_inferred_schema (s : Server) :
  schema (data_log (data_manager s)) = inferred_schema ->
  data_buffer (data_manager s) <> [] ->
  forallb plain_reading (data_buffer (data_manager s)) = true ->
  fst (flush_buffer_to_log s) = Ok tt
  /\ rows (data_log (data_manager (snd (flush_buffer_to_log s))))
     = rows (data_log (data_manager s))
       ++ map (fun m => map snd (model_dump m)) (data_buffer (data_manager s))
  /\ data_buffer (data_manager (snd (flush_buffer_to_log s))) = [].
Proof.
  intros Hs Hne Hall.
  apply (flush_appends_when_types_agree s
           {| schema := inferred_schema;
              rows := map (fun m => map snd (model_dump m))
                        (data_buffer (data_manager s)) |}).
  - exact Hne.
  - apply DataFrame_of_dumps_plain; assumption.
  - rewrite Hs. reflexivity.
Qed.

Lemma get_data_log_raises (limit : Z) (e : exn) (s : Server) :
  flush_buffer_to_log s = (Raise e, s) ->
  get_data_log limit s = (Raise e, s).
Proof.
  intros Hf. unfold get_data_log, bind at 1. rewrite Hf. reflexivity.
Qed.

(** X20.  On the schema that a new log is given, nothing that was buffered
    ever gets out: with a reading in the buffer, the flush raises, and so
    do [save_log_to_disk], the history query and the periodic saver, each
    leaving the state, the buffer and the files included, as it was. *)
Theorem declared_schema_blocks_the_log (limit : Z) (ticks : nat) (s : Server) :
  schema (data_log (data_manager s)) = log_schema ->
  data_buffer (data_manager s) <> [] ->
  exists e : exn,
    flush_buffer_to_log s = (Raise e, s)
    /\ save_log_to_disk s = (Raise e, s)
    /\ get_data_log limit s = (Raise e, s)
    /\ periodic_data_saver (S ticks) s = (Raise e, s).
Proof.
  intros Hs Hne.
  destruct (flush_on_declared_schema_raises s Hs Hne) as [e He].
  exists e. split; [exact He|]. split; [|split].
  - rewrite save_log_to_disk_eq, He. reflexivity.
  - apply get_data_log_raises, He.
  - cbn [periodic_data_saver]. unfold bind at 1.
    rewrite save_log_to_disk_eq, He. reflexivity.
Qed.

(** X21.  An idle saver: with nothing buffered, any number of ticks
    returns normally and leaves both managers as they were; a data log
    without rows is never written to disk. *)
Theorem periodic_data_saver_idle (ticks : nat) :
  forall s : Server,
    data_buffer (data_manager s) = [] ->
    let run := periodic_data_saver ticks s in
    fst run = Ok tt
    /\ data_manager (snd run) = data_manager s
    /\ conn_manager (snd run) = conn_manager s
    /\ (is_empty (data_log (data_manager s)) = true -> snd run = s).
Proof.
  induction ticks as [|n IH]; intros s Hb run; subst run.
  - simpl. repeat split.
  - assert (E : periodic_data_saver (S n) s
                = match save_log_to_disk s with
                  | (Ok _, s1) => periodic_data_saver n s1
                  | (Raise e, s1) => (Raise e, s1)
                  end) by reflexivity.
    rewrite E, save_log_to_disk_eq, (flush_empty_buffer s Hb).
    destruct (is_empty (data_log (data_manager s))) eqn:He; cbn [negb].
    + destruct (IH s Hb) as (H1 & H2 & H3 & H4).
      split; [exact H1|]. split; [exact H2|]. split; [exact H3|].
      intros _. apply H4, He.
    + set (s1 := set_logs _ _).
      assert (Hd : data_manager s1 = data_manager s) by reflexivity.
      assert (Hc : conn_manager s1 = conn_manager s) by reflexivity.
      assert (Hb1 : data_buffer (data_manager s1) = [])
        by (rewrite Hd; exact Hb).
      destruct (IH s1 Hb1) as (H1 & H2 & H3 & _).
      split; [exact H1|]. split; [rewrite H2; exact Hd|].
      split; [rewrite H3; exact Hc|]. discriminate.
Qed.

(** *** The further properties at concrete inputs *)

Lemma three_producers_unique (bad : list WebSocket) :
  unique_ids (three_producers bad).
Proof.
  unfold unique_ids. simpl.
  repeat constructor; simpl; intuition discriminate.
Qed.

Lemma add_computercraft_registers_witness :
  "B" <> "D"
  /\ dict_get "D"
       (connections (snd (add_computercraft "D" 4%nat (three_producers []))))
     = Some 4%nat
  /\ dict_get "B"
       (connections (snd (add_computercraft "D" 4%nat (three_producers []))))
     = dict_get "B" (connections (three_producers [])).
Proof.
  assert (H : "B" <> "D") by (apply String.eqb_neq; reflexivity).
  split; [exact H|].
  destruct (add_computercraft_registers "D" "B" 4%nat (three_producers []) H)
    as (_ & H1 & H2 & _).
  split; assumption.
Defined.

Lemma add_computercraft_replaces_in_place_witness :
  dict_mem "B" (connections (three_producers [])) = true
  /\ keys (connections (snd (add_computercraft "B" 9%nat (three_producers []))))
     = keys (connections (three_producers []))
  /\ dict_get "B"
       (connections (snd (add_computercraft "B" 9%nat (three_producers []))))
     = Some 9%nat.
Proof.
  split; [reflexivity|].
  destruct (add_computercraft_replaces_in_place "B" 9%nat (three_producers [])
              eq_refl) as (H1 & H2 & _).
  split; assumption.
Defined.

Lemma remove_computercraft_cleans_up_witness :
  unique_ids (three_producers [])
  /\ "C" <> "B"
  /\ dict_get "B"
       (connections (snd (remove_computercraft "B" (three_producers []))))
     = None
  /\ dict_get "C"
       (connections (snd (remove_computercraft "B" (three_producers []))))
     = dict_get "C" (connections (three_producers [])).
Proof.
  assert (Hu := three_producers_unique []).
  assert (H : "C" <> "B") by (apply String.eqb_neq; reflexivity).
  split; [exact Hu|]. split; [exact H|].
  destruct (remove_computercraft_cleans_up "B" "C" (three_producers []) Hu H)
    as (_ & H1 & H2 & _).
  split; assumption.
Defined.

Lemma remove_computercraft_absent_witness :
  dict_mem "Z" (connections (three_producers [])) = false
  /\ remove_computercraft "Z" (three_producers [])
     = (Ok tt, three_producers []).
Proof.
  split; [reflexivity|].
  apply (remove_computercraft_absent "Z" (three_producers [])). reflexivity.
Defined.

Lemma registry_steps_keep_ids_unique_witness :
  unique_ids (three_producers [])
  /\ unique_ids
       (apply_op (Some (producer_connects "B" 9%nat)) (three_producers [])).
Proof.
  assert (Hu := three_producers_unique []).
  split; [exact Hu|].
  apply (registry_steps_keep_ids_unique
           (Some (producer_connects "B" 9%nat)) (three_producers []) Hu).
Defined.



Lemma superseded_handler_unregisters_successor_witness :
  unique_ids fresh
  /\ dict_get "A"
       (connections
          (snd (websocket_resume sample_validate_json "A" [peer_disconnects]
                  (snd (websocket_endpoint sample_validate_json 2%nat "A" []
                          (snd (websocket_endpoint sample_validate_json 1%nat
                                  "A" [] fresh)))))))
     = None.
Proof.
  assert (Hu : unique_ids fresh) by constructor.
  split; [exact Hu|].
  destruct (superseded_handler_unregisters_successor sample_validate_json
              1%nat 2%nat "A" fresh Hu) as (_ & _ & _ & H).
  exact H.
Defined.


Lemma right_secret_opens_link_witness :
  "supersecretkey" = SECRET_KEY default_settings
  /\ fst (websocket_route default_settings sample_validate_json 1%nat "A"
            "supersecretkey" [] fresh)
     = Ok Receiving
  /\ dict_get "A"
       (connections
          (snd (websocket_route default_settings sample_validate_json 1%nat
                  "A" "supersecretkey" [] fresh)))
     = Some 1%nat.
Proof.
  split; [reflexivity|].
  destruct (right_secret_opens_link default_settings sample_validate_json
              1%nat "A" "supersecretkey" fresh eq_refl) as (H1 & _ & H3 & _).
  split; assumption.
Defined.

Lemma invalid_command_is_dropped_witness :
  ControlCommand_model_validate [("value", AInt 3)] = Raise ValidationError
  /\ control_command sample_dump_json "esp" [("value", AInt 3)]
       [Some (producer_disconnects "B")] a_broken
     = (Ok tt,
        set_logs
          (logs a_broken
           ++ [error_invalid_command "esp" [("value", AInt 3)]
                 ValidationError])
          a_broken).
Proof.
  split; [reflexivity|].
  apply (invalid_command_is_dropped sample_dump_json "esp"
           [("value", AInt 3)] ValidationError
           [Some (producer_disconnects "B")] a_broken).
  reflexivity.
Defined.

Lemma flush_all_or_nothing_witness :
  schema (data_log (data_manager text_buffered)) = text_status_schema
  /\ map status (data_buffer (data_manager text_buffered))
     = [StatusBool true; StatusStr "on"]
  /\ fst (flush_buffer_to_log text_buffered) = Ok tt
  /\ data_buffer (data_manager (snd (flush_buffer_to_log text_buffered))) = []
  /\ map (fun r => nth 5 r PyNone)
       (rows (data_log (data_manager (snd (flush_buffer_to_log text_buffered)))))
     = [PyStr "true"; PyStr "on"].
Proof.
  split; [reflexivity|]. split; [reflexivity|].
  destruct (flush_all_or_nothing text_buffered) as [[e He]|H].
  - apply (f_equal fst) in He. vm_compute in He. discriminate.
  - cbv zeta in H.
    destruct H as (Hok & Hbuf & (stored & Hst & _ & Hrows) & _).
    split; [exact Hok|]. split; [exact Hbuf|].
    rewrite Hrows. vm_compute in Hst. injection Hst as <-. reflexivity.
Defined.

Lemma save_then_load_round_trip_witness :
  fst (flush_buffer_to_log restarted_buffered) = Ok tt
  /\ is_empty
       (data_log (data_manager (snd (flush_buffer_to_log restarted_buffered))))
     = false
  /\ fst (save_log_to_disk restarted_buffered) = Ok tt
  /\ dict_get (log_file (data_manager restarted_buffered))
       (files (snd (save_log_to_disk restarted_buffered)))
     = Some (data_log (data_manager (snd (save_log_to_disk restarted_buffered))))
  /\ List.length
       (rows (data_log
                (data_manager (snd (save_log_to_disk restarted_buffered)))))
     = 2%nat.
Proof.
  split; [reflexivity|]. split; [reflexivity|].
  destruct (save_then_load_round_trip restarted_buffered eq_refl eq_refl)
    as (H1 & _ & H3 & _).
  split; [exact H1|]. split; [exact H3|reflexivity].
Defined.

Lemma save_skips_disk_witness :
  fst (flush_buffer_to_log two_buffered) <> Ok tt
  /\ files (snd (save_log_to_disk two_buffered)) = files two_buffered.
Proof.
  assert (H : fst (flush_buffer_to_log two_buffered) <> Ok tt)
    by (simpl; discriminate).
  split; [exact H|].
  apply (save_skips_disk two_buffered). left. exact H.
Defined.

Lemma periodic_data_saver_stops_at_failure_witness :
  flush_buffer_to_log two_buffered = (Raise SchemaError, two_buffered)
  /\ periodic_data_saver 3 two_buffered = (Raise SchemaError, two_buffered).
Proof.
  split; [reflexivity|].
  apply (periodic_data_saver_stops_at_failure SchemaError 2 two_buffered).
  reflexivity.
Defined.

Lemma get_data_log_returns_last_rows_witness :
  0 <= 1
  /\ fst (flush_buffer_to_log restarted_buffered) = Ok tt
  /\ exists recent older : list (dict pyval),
       get_data_log 1 restarted_buffered
       = (Ok recent, snd (flush_buffer_to_log restarted_buffered))
       /\ DataFrame_to_dicts
            (data_log
               (data_manager (snd (flush_buffer_to_log restarted_buffered))))
          = older ++ recent
       /\ List.length recent
          = Nat.min (Z.to_nat 1)
              (height
                 (data_log
                    (data_manager
                       (snd (flush_buffer_to_log restarted_buffered))))).
Proof.
  split; [lia|]. split; [reflexivity|].
  apply (get_data_log_returns_last_rows 1 restarted_buffered);
    [lia|reflexivity].
Defined.

Lemma scaled_clamps_above_witness :
  valid_binary prec emax (float_of_Z 10000) = true
  /\ fleb max_exact (float_of_Z 10000) = true
  /\ (scaled (float_of_Z 10000) = Ok 65535
      \/ (fmul (float_of_Z 10000) (float_of_Z 10) = S754_infinity false
          /\ scaled (float_of_Z 10000) = Raise OverflowError)).
Proof.
  split; [vm_compute; reflexivity|]. split; [vm_compute; reflexivity|].
  apply (scaled_clamps_above (float_of_Z 10000)); vm_compute; reflexivity.
Defined.

Lemma flush_appends_on_inferred_schema_witness :
  schema (data_log (data_manager restarted_buffered)) = inferred_schema
  /\ data_buffer (data_manager restarted_buffered) <> []
  /\ forallb plain_reading (data_buffer (data_manager restarted_buffered))
     = true
  /\ fst (flush_buffer_to_log restarted_buffered) = Ok tt
  /\ data_buffer (data_manager (snd (flush_buffer_to_log restarted_buffered)))
     = [].
Proof.
  assert (Hne : data_buffer (data_manager restarted_buffered) <> [])
    by (simpl; discriminate).
  split; [reflexivity|]. split; [exact Hne|]. split; [reflexivity|].
  destruct (flush_appends_on_inferred_schema restarted_buffered eq_refl Hne
              eq_refl) as (H1 & _ & H3).
  split; assumption.
Defined.

Lemma declared_schema_blocks_the_log_witness :
  schema (data_log (data_manager two_buffered)) = log_schema
  /\ data_buffer (data_manager two_buffered) <> []
  /\ exists e : exn,
       flush_buffer_to_log two_buffered = (Raise e, two_buffered)
       /\ save_log_to_disk two_buffered = (Raise e, two_buffered)
       /\ get_data_log 100 two_buffered = (Raise e, two_buffered)
       /\ periodic_data_saver 1 two_buffered = (Raise e, two_buffered).
Proof.
  assert (Hne : data_buffer (data_manager two_buffered) <> [])
    by (simpl; discriminate).
  split; [reflexivity|]. split; [exact Hne|].
  apply (declared_schema_blocks_the_log 100 0 two_buffered eq_refl Hne).
Defined.


Lemma periodic_data_saver_idle_witness :
  data_buffer (data_manager fresh) = []
  /\ is_empty (data_log (data_manager fresh)) = true
  /\ fst (periodic_data_saver 5 fresh) = Ok tt
  /\ snd (periodic_data_saver 5 fresh) = fresh.
Proof.
  split; [reflexivity|]. split; [reflexivity|].
  destruct (periodic_data_saver_idle 5 fresh eq_refl) as (H1 & _ & _ & H4).
  split; [exact H1|]. apply H4. reflexivity.
Defined.
